(** * scraper-mcp: the x402 payment-retry pump of [src/index.ts]

    A shallow embedding of the server's logical core: the payment
    detector [isX402], the payment executor [pay], the two fetchers
    [getLinks] and [extractText], the domain filter [filterUrls] and the
    three tool operations of the [CallToolRequestSchema] handler.

    Values received from the scraping API have TypeScript type [any]; they
    are modelled as the values [JSON.parse] can produce.  Asynchronous code
    is sequential ([await] at every call), so it is modelled in a monad
    that threads the chronological trace of network requests and can
    throw. *)

From Stdlib Require Import String Ascii List Bool Arith Lia PrimFloat.

Set Warnings "-register-all".
Import ListNotations.
Local Open Scope string_scope.
Local Open Scope list_scope.

(** ** JavaScript values *)

Module JS.

(** The values of a parsed JSON document, plus [undefined] (what a missing
    property reads as).  Numbers are IEEE 754 doubles, as in JavaScript.
    An object is the list of its own properties; the first binding of a
    key is the one that counts. *)
Inductive value : Type :=
| Undefined
| Null
| Bool (b : bool)
| Num (n : float)
| Str (s : string)
| Arr (items : list value)
| Obj (props : list (string * value)).

(** ToBoolean: [undefined], [null], [false], [0], [-0], [NaN] and the empty
    string are falsy; every array and object is truthy. *)
Definition truthy (v : value) : bool :=
  match v with
  | Undefined | Null => false
  | Bool b => b
  | Num n => negb (PrimFloat.eqb n 0%float || PrimFloat.is_nan n)
  | Str "" => false
  | Str _ => true
  | Arr _ | Obj _ => true
  end.

Definition nullish (v : value) : bool :=
  match v with Undefined | Null => true | _ => false end.

Fixpoint own (k : string) (props : list (string * value)) : option value :=
  match props with
  | [] => None
  | (k', v) :: rest => if String.eqb k k' then Some v else own k rest
  end.

(** [v?.k] for a property name [k] that no built-in prototype defines and
    that is neither an index nor [length] (the source reads
    [x402Version], [accepts], [resource], [results] and [links] only):
    the own property of an object, [undefined] on everything else. *)
Definition opt_get (v : value) (k : string) : value :=
  match v with
  | Obj props => match own k props with Some x => x | None => Undefined end
  | _ => Undefined
  end.

(** [v?.[0]]: the first element of an array, the first character of a
    string, the own property ["0"] of an object. *)
Definition opt_first (v : value) : value :=
  match v with
  | Arr (x :: _) => x
  | Str (String c _) => Str (String c "")
  | Obj props => match own "0" props with Some x => x | None => Undefined end
  | _ => Undefined
  end.

(** [a && b]: the left operand when it is falsy, the right one otherwise.
    The result is an operand, not a boolean. *)
Definition and_ (a b : value) : value := if truthy a then b else a.

(** [a || b]. *)
Definition or_ (a b : value) : value := if truthy a then a else b.

(** ToString as a template literal applies it, as far as it can throw.
    On a parsed JSON document the conversion fails exactly when
    OrdinaryToPrimitive meets an object whose own [toString] property
    shadows [Object.prototype.toString]: an own property of a JSON object
    is never callable, and [Object.prototype.valueOf] returns the object
    itself, so no primitive is found and a TypeError is thrown.  An array
    converts through [join], which converts every element other than
    [null] and [undefined]. *)
Fixpoint convertible (v : value) : bool :=
  match v with
  | Obj props =>
      match own "toString" props with Some _ => false | None => true end
  | Arr items => forallb convertible items
  | _ => true
  end.

End JS.

Import JS.

(** ** Strings *)

(** A string holds the text of a JavaScript string as bytes: UTF-8, in
    which a surrogate code unit that belongs to no pair is written like a
    code point of its own, by the three bytes [ED], [A0]..[BF], [80]..[BF]
    (a pair is written as the four bytes of the character it encodes). *)
Definition surrogate_bytes (a b : ascii) : bool :=
  (nat_of_ascii a =? 237)%nat
  && (160 <=? nat_of_ascii b)%nat && (nat_of_ascii b <=? 191)%nat.

(** [s.isWellFormed()]: no lone surrogate in [s]. *)
Fixpoint isWellFormed (s : string) : bool :=
  match s with
  | EmptyString => true
  | String a rest =>
      match rest with
      | String b _ => negb (surrogate_bytes a b)
      | EmptyString => true
      end
      && isWellFormed rest
  end.

Fixpoint drop (n : nat) (s : string) : string :=
  match n, s with
  | S n', String _ s' => drop n' s'
  | _, _ => s
  end.

Fixpoint starts_with (p s : string) : bool :=
  match p, s with
  | EmptyString, _ => true
  | String a p', String b s' => Ascii.eqb a b && starts_with p' s'
  | String _ _, EmptyString => false
  end.

(** [s.includes(needle)]: [needle] occurs in [s] as a substring. *)
Fixpoint includes (s needle : string) : bool :=
  starts_with needle s ||
  match s with
  | EmptyString => false
  | String _ s' => includes s' needle
  end.

(** [s.replace(pat, rep)] with a string pattern: the first occurrence of
    [pat] in [s] is replaced, wherever it is; [s] is returned unchanged
    when [pat] does not occur.  ([rep] is [""] at every call of the source,
    so the [$] patterns of a replacement string play no part.) *)
Fixpoint replace (pat rep s : string) : string :=
  if starts_with pat s then rep ++ drop (String.length pat) s
  else match s with
       | EmptyString => EmptyString
       | String c s' => String c (replace pat rep s')
       end.

(** The stripping the specification describes, for comparison with
    [replace]: a leading [www.] is cut, and nothing else. *)
Definition strip_leading_www (s : string) : string :=
  if starts_with "www." s then drop 4 s else s.

(** ** Payment detector *)

(** [const isX402 = (data: any) => data?.x402Version && data?.accepts;] *)
Definition isX402 (data : value) : value :=
  and_ (opt_get data "x402Version") (opt_get data "accepts").

(** ** The network and the effect monad *)

(** The three requests the server issues, by endpoint.
    - [Links url]: [GET {base}/links?url=<encodeURIComponent(url)>];
    - [Extract urls domain]: [POST {base}/extract-text] with body
      [{urls, domain}];
    - [Payment url]: [POST {base}/do-payment] with body [{url}]. *)
Inductive request : Type :=
| Links (url : string)
| Extract (urls : list value) (domain : string)
| Payment (url : value).

(** What [fetch] then [res.json()] can give: [fetch] rejects, or it
    resolves to a response with its [ok] flag and a body that parses as
    JSON ([Some]) or does not ([None], [res.json()] rejects). *)
Inductive response : Type :=
| Rejected
| Reply (ok : bool) (body : option value).

(** The trace records every request in the order issued, and every entry
    into [pay] (an entry is not otherwise observable: [pay] may return
    before any request). *)
Inductive event : Type :=
| Sent (r : request)
| PayCalled (x402 : value).

Definition trace := list event.

(** The remote side: any function of the interaction so far and of the
    request.  Nothing is assumed about it. *)
Definition network := trace -> request -> response.

Inductive exn : Type :=
| TypeError | URIError | FetchError | SyntaxError | MethodNotFound.

(** The outcome of a call: a value, an exception (a rejected promise), or
    the recursion budget of the model exhausted. *)
Inductive result (A : Type) : Type :=
| Ok (a : A)
| Throw (e : exn)
| OutOfFuel.
Arguments Ok {A} a.
Arguments Throw {A} e.
Arguments OutOfFuel {A}.

(** A computation is run against a network, after a history; it yields an
    outcome and the events it added to the history. *)
Definition M (A : Type) : Type := network -> trace -> result A * trace.

Definition ret {A} (a : A) : M A := fun _ _ => (Ok a, []).

Definition throw {A} (e : exn) : M A := fun _ _ => (Throw e, []).

Definition out_of_fuel {A} : M A := fun _ _ => (OutOfFuel, []).

Definition lift {A} (r : result A) : M A := fun _ _ => (r, []).

Definition bind {A B} (m : M A) (k : A -> M B) : M B :=
  fun net t =>
    match m net t with
    | (Ok a, d) => let (r, d') := k a net (t ++ d) in (r, d ++ d')
    | (Throw e, d) => (Throw e, d)
    | (OutOfFuel, d) => (OutOfFuel, d)
    end.

(** [try { m } catch (e) { h e }] *)
Definition try_catch {A} (m : M A) (h : exn -> M A) : M A :=
  fun net t =>
    match m net t with
    | (Throw e, d) => let (r, d') := h e net (t ++ d) in (r, d ++ d')
    | other => other
    end.

Declare Scope js_scope.
Delimit Scope js_scope with js.
Notation "x <- m ;; k" := (bind m (fun x => k))
  (at level 100, m at next level, right associativity) : js_scope.
Notation "m ;; k" := (bind m (fun _ => k))
  (at level 100, right associativity) : js_scope.
Local Open Scope js_scope.

Definition record (e : event) : M unit := fun _ _ => (Ok tt, [e]).

(** What [await fetch(...)] resolves to: the [ok] flag and the body. *)
Definition fetched : Type := bool * option value.

(** [await fetch(...)] *)
Definition fetch (r : request) : M fetched :=
  fun net t =>
    match net t r with
    | Rejected => (Throw FetchError, [Sent r])
    | Reply ok body => (Ok (ok, body), [Sent r])
    end.

(** [await res.json()] *)
Definition json (res : fetched) : M value :=
  match snd res with
  | Some data => ret data
  | None => throw SyntaxError
  end.

(** [v.k] without optional chaining: a TypeError on [null] and
    [undefined]. *)
Definition get (v : value) (k : string) : M value :=
  if nullish v then throw TypeError else ret (opt_get v k).

(** [v.filter(f)]: a TypeError unless [v] is an array (no other parsed
    JSON value has a callable [filter]). *)
Definition array_filter (f : value -> value) (v : value) : M (list value) :=
  match v with
  | Arr items => ret (List.filter (fun x => truthy (f x)) items)
  | _ => throw TypeError
  end.

(** A template literal interpolating [v]. *)
Definition template (v : value) : M unit :=
  if convertible v then ret tt else throw TypeError.

(** [encodeURIComponent(s)], as far as it can throw: a URIError on a
    string with a lone surrogate.  The encoded text is not kept: a request
    is told by its endpoint and its arguments. *)
Definition encodeURIComponent (s : string) : M unit :=
  if isWellFormed s then ret tt else throw URIError.

(** [for (const x of xs) { await body(x); }] *)
Fixpoint for_of {A B} (xs : list A) (body : A -> M B) : M unit :=
  match xs with
  | [] => ret tt
  | x :: rest => body x ;; for_of rest body
  end.

(** ** Payment executor *)

(** [x402?.accepts?.[0]?.resource] *)
Definition resource_of (x402 : value) : value :=
  opt_get (opt_first (opt_get x402 "accepts")) "resource".

(** [async function pay(x402: any): Promise<boolean>].  The first log line
    interpolates [url] and stands before the [try]; the log lines inside
    the [try] interpolate string literals only and are left out. *)
Definition pay (x402 : value) : M bool :=
  record (PayCalled x402) ;;
  let url := resource_of x402 in
  if negb (truthy url) then ret false
  else
    template url ;;
    try_catch
      (res <- fetch (Payment url) ;; ret (fst res))
      (fun _ => ret false).

(** ** Link fetcher *)

(** [async function getLinks(url: string, retry = true): Promise<any>].
    [fuel] bounds the depth of the recursion; the log lines interpolate
    the string [url] only and are left out.  The address of the request
    is built, and [url] encoded, before [fetch] is called. *)
Fixpoint getLinks (fuel : nat) (url : string) (retry : bool) : M value :=
  match fuel with
  | 0 => out_of_fuel
  | S fuel' =>
      encodeURIComponent url ;;
      res <- fetch (Links url) ;;
      data <- json res ;;
      if truthy (isX402 data) then
        paid <- (if retry then pay data else ret false) ;;
        if paid then getLinks fuel' url false else ret data
      else ret data
  end.

(** ** Text extractor *)

(** [async function extractText(urls: string[], domain: string,
    retry = true): Promise<any>].  The log lines interpolate the string
    [domain] and two array lengths only and are left out. *)
Fixpoint extractText (fuel : nat) (urls : list value) (domain : string)
    (retry : bool) : M value :=
  match fuel with
  | 0 => out_of_fuel
  | S fuel' =>
      res <- fetch (Extract urls domain) ;;
      data <- json res ;;
      if truthy (isX402 data) then
        paid <- (if retry then pay data else ret false) ;;
        if paid then extractText fuel' urls domain false else ret data
      else
        results <- get data "results" ;;
        if truthy results && retry then
          x402Results <- array_filter isX402 results ;;
          if (0 <? List.length x402Results)%nat then
            for_of x402Results pay ;;
            extractText fuel' urls domain false
          else ret data
        else ret data
  end.

(** ** Domain filter and tool operations *)

(** What a tool call answers: [{content: [{type: "text", text}]}], where
    [text] is either a string literal or [JSON.stringify(payload, null, 2)];
    the payload is kept as a value. *)
Inductive tool_text : Type :=
| Plain (text : string)
| Stringified (payload : value).

(** The request the dispatcher hands to the handler, with the arguments
    at the types the handler casts them to. *)
Inductive tool_call : Type :=
| get_links (url : string)
| extract_text (urls : list value) (domain : string)
| scrape_website (url : string)
| other_tool (name : string).

Definition socials : list string :=
  ["github.com"; "linkedin.com"; "instagram.com"; "twitter.com";
   "facebook.com"; "youtube.com"; "x.com"].

Section Tools.

(** [new URL(x).hostname], a service of the platform: [None] when the
    constructor throws.  The development holds for every such function. *)
Variable URL_hostname : value -> option string.

(** The host value of a parsed URL: [hostname.replace("www.", "")]. *)
Definition host_of (x : value) : result string :=
  match URL_hostname x with
  | Some hostname => Ok (replace "www." "" hostname)
  | None => Throw TypeError
  end.

(** The body of the [try] in the callback of [filterUrls]. *)
Definition same_site (domain : string) (link : value) : result bool :=
  match host_of link with
  | Ok host =>
      Ok (negb (existsb (fun s => includes host s) socials)
          && includes host (replace "www." "" domain))
  | Throw e => Throw e
  | OutOfFuel => OutOfFuel
  end.

(** [try { ... } catch { return false; }] *)
Definition keeps (domain : string) (link : value) : bool :=
  match same_site domain link with
  | Ok b => b
  | _ => false
  end.

(** [function filterUrls(links: string[], domain: string): string[]].
    The element type is erased at run time and the orchestrator passes
    [links.links] of type [any], so the elements are values. *)
Definition filterUrls (links : list value) (domain : string) : list value :=
  List.filter (keeps domain) links.

(** A value used where the source calls [.filter] on it. *)
Definition as_array (v : value) : M (list value) :=
  match v with
  | Arr items => ret items
  | _ => throw TypeError
  end.

(** The [CallToolRequestSchema] handler.  [MethodNotFound] is the
    [McpError] of its last line. *)
Definition callTool (fuel : nat) (c : tool_call) : M tool_text :=
  match c with
  | get_links url =>
      result <- getLinks fuel url true ;;
      ret (Stringified result)
  | extract_text urls domain =>
      let filtered := filterUrls urls domain in
      if (List.length filtered =? 0)%nat
      then ret (Plain "No URLs matched domain filter")
      else
        result <- extractText fuel filtered domain true ;;
        ret (Stringified result)
  | scrape_website url =>
      domain <- lift (host_of (Str url)) ;;
      links <- getLinks fuel url true ;;
      if truthy (isX402 links) then
        ret (Stringified
          (Obj [("error", Str "Payment failed for links"); ("x402", links)]))
      else
        found <- get links "links" ;;
        candidates <- as_array (or_ found (Arr [])) ;;
        let filtered := filterUrls candidates domain in
        if (List.length filtered =? 0)%nat then
          ret (Stringified
            (Obj [("links", found); ("filtered", Arr []);
                  ("message", Str "No internal links found")]))
        else
          extracted <- extractText fuel filtered domain true ;;
          ret (Stringified
            (Obj [("links", links); ("filtered", Arr filtered);
                  ("extracted", extracted)]))
  | other_tool _ => throw MethodNotFound
  end.

End Tools.

(** The [arguments] of a tool request, at the types the handler casts
    them to. *)
Record arguments : Type :=
  { arg_url : string; arg_urls : list value; arg_domain : string }.

(** The tools the [ListToolsRequestSchema] handler advertises: name,
    description and required arguments. *)
Record tool : Type :=
  { name : string; description : string; required : list string }.

Definition listTools : list tool :=
  [ {| name := "get_links";
       description := "Get all links from a URL. Auto-pays x402 if required.";
       required := ["url"] |};
    {| name := "extract_text";
       description :=
         "Extract text from URLs. Filters to domain, excludes socials. Auto-pays x402.";
       required := ["urls"; "domain"] |};
    {| name := "scrape_website";
       description :=
         "Full scrape: get links → filter to domain → extract text. Auto-pays x402.";
       required := ["url"] |} ].

(** The [CallToolRequestSchema] handler as the dispatcher calls it, by
    tool name. *)
Definition handler (URL_hostname : value -> option string) (fuel : nat)
    (tool_name : string) (args : arguments) : M tool_text :=
  if String.eqb tool_name "get_links" then
    callTool URL_hostname fuel (get_links (arg_url args))
  else if String.eqb tool_name "extract_text" then
    callTool URL_hostname fuel (extract_text (arg_urls args) (arg_domain args))
  else if String.eqb tool_name "scrape_website" then
    callTool URL_hostname fuel (scrape_website (arg_url args))
  else callTool URL_hostname fuel (other_tool tool_name).

(** A parser for the plain URLs [http://host/...] and [https://host/...],
    to run the development on examples: the host is what stands between
    the scheme and the first [/].  Every other value is rejected. *)
Fixpoint until_slash (s : string) : string :=
  match s with
  | EmptyString => EmptyString
  | String c s' =>
      if Ascii.eqb c "/"%char then EmptyString
      else String c (until_slash s')
  end.

Definition plain_hostname (x : value) : option string :=
  match x with
  | Str s =>
      let rest :=
        if starts_with "https://" s then Some (drop 8 s)
        else if starts_with "http://" s then Some (drop 7 s)
        else None in
      match rest with
      | Some r => match until_slash r with
                  | EmptyString => None
                  | h => Some h
                  end
      | None => None
      end
  | _ => None
  end.

(** ** Observations on traces and responses *)

Definition is_links (e : event) : bool :=
  match e with Sent (Links _) => true | _ => false end.
Definition is_extract (e : event) : bool :=
  match e with Sent (Extract _ _) => true | _ => false end.
Definition is_payment (e : event) : bool :=
  match e with Sent (Payment _) => true | _ => false end.

Definition count (p : event -> bool) (d : trace) : nat :=
  List.length (List.filter p d).

(** The number of requests a trace holds, by endpoint. *)
Definition links_sent : trace -> nat := count is_links.
Definition extracts_sent : trace -> nat := count is_extract.
Definition payments_sent : trace -> nat := count is_payment.

(** The challenges [pay] was called on, in order. *)
Fixpoint paid_items (d : trace) : list value :=
  match d with
  | [] => []
  | PayCalled x :: rest => x :: paid_items rest
  | Sent _ :: rest => paid_items rest
  end.

(** The outcome of [await fetch(...)] followed by [await res.json()]. *)
Definition body_of (r : response) : result value :=
  match r with
  | Rejected => Throw FetchError
  | Reply _ None => Throw SyntaxError
  | Reply _ (Some data) => Ok data
  end.

Definition status_of (r : response) : bool :=
  match r with
  | Rejected => false
  | Reply ok _ => ok
  end.

(** What a call without retry answers to a response: the body as it is,
    a body that is [null] excepted, whose [results] cannot be read. *)
Definition unretried (r : response) : result value :=
  match body_of r with
  | Ok data => if nullish data then Throw TypeError else Ok data
  | other => other
  end.

(** The items of a [results] array the detector matches. *)
Definition challenges (items : list value) : list value :=
  List.filter (fun x => truthy (isX402 x)) items.

(** [pay] does not throw on this challenge: its resource is falsy, or
    converts to a string. *)
Definition payable (x402 : value) : bool :=
  negb (truthy (resource_of x402)) || convertible (resource_of x402).

(** The resources payment was requested for, in order. *)
Fixpoint payments_for (d : trace) : list value :=
  match d with
  | [] => []
  | Sent (Payment u) :: rest => u :: payments_for rest
  | _ :: rest => payments_for rest
  end.

(** The challenges that name a resource. *)
Definition billable (xs : list value) : list value :=
  List.filter (fun x => truthy (resource_of x)) xs.

(** The traces a fetcher may leave, [own] being its request: a sequence
    of that very request and of payment episodes.  An episode is an entry
    into [pay] on a value the detector accepts, followed or not by one
    payment request, which is then for the resource of that very value.
    No payment request stands anywhere else. *)
Inductive billed (own : request) : trace -> Prop :=
| billed_nil : billed own []
| billed_own (rest : trace) :
    billed own rest -> billed own (Sent own :: rest)
| billed_unpaid (x402 : value) (rest : trace) :
    truthy (isX402 x402) = true ->
    billed own rest -> billed own (PayCalled x402 :: rest)
| billed_paid (x402 : value) (rest : trace) :
    truthy (isX402 x402) = true ->
    billed own rest ->
    billed own (PayCalled x402 :: Sent (Payment (resource_of x402)) :: rest).

(** A run that ends (the budget is not exhausted), does not report an
    unknown tool, and sends at most [nl] link-discovery and [ne]
    extraction requests. *)
Definition within {A} (nl ne : nat) (run : result A * trace) : Prop :=
  fst run <> OutOfFuel /\
  fst run <> Throw MethodNotFound /\
  links_sent (snd run) <= nl /\
  extracts_sent (snd run) <= ne.

(** ** Sample values and networks *)

(** A challenge with one option, for [resource]. *)
Definition challenge_for (resource : value) : value :=
  Obj [("x402Version", Num 1);
       ("accepts", Arr [Obj [("resource", resource)]])].

(** The challenge with no option. *)
Definition empty_options : value :=
  Obj [("x402Version", Num 1); ("accepts", Arr [])].

(** A link-discovery endpoint that answers its first request with a
    challenge (status 402) and the later ones with the links; payments
    succeed or fail as [paid] says. *)
Definition paywalled_links (paid : bool) : network :=
  fun t r =>
    match r with
    | Links _ =>
        if (links_sent t =? 0)%nat
        then Reply false (Some (challenge_for (Str "u")))
        else Reply true (Some (Obj [("links", Arr [Str "a"])]))
    | Payment _ => Reply paid None
    | Extract _ _ => Rejected
    end.

(** An endpoint that answers every request with [body], status 402. *)
Definition answering (body : value) : network :=
  fun _ _ => Reply false (Some body).

(** An extraction endpoint that always answers [body]. *)
Definition extraction_server (body : value) (paid : bool) : network :=
  fun _ r =>
    match r with
    | Extract _ _ => Reply true (Some body)
    | Payment _ => Reply paid None
    | Links _ => Rejected
    end.

(** An extraction response: a text, a challenge whose resource cannot be
    converted to a string, a challenge for a URL. *)
Definition mixed_results : value :=
  Obj [("results",
        Arr [Obj [("url", Str "a"); ("text", Str "t")];
             challenge_for (Obj [("toString", Num 1)]);
             challenge_for (Str "b")])].

(** An extraction response: a text and a challenge for a URL. *)
Definition partly_paywalled : value :=
  Obj [("results",
        Arr [Obj [("url", Str "a"); ("text", Str "t")];
             challenge_for (Str "b")])].

(** A string that ends in the lone surrogate [U+D800]. *)
Definition lone_surrogate : string :=
  "https://example.com/"
  ++ String (ascii_of_nat 237)
       (String (ascii_of_nat 160) (String (ascii_of_nat 128) "")).

(** A network on which every request fails. *)
Definition unreachable : network := fun _ _ => Rejected.

(** A site with one page of its own and one link to the denylist, whose
    extraction succeeds at once. *)
Definition site_server : network :=
  fun _ r =>
    match r with
    | Links _ =>
        Reply true
          (Some (Obj [("links", Arr [Str "https://example.com/a";
                                     Str "https://github.com/x"])]))
    | Extract _ _ =>
        Reply true
          (Some (Obj [("results",
                       Arr [Obj [("url", Str "https://example.com/a");
                                 ("text", Str "t")]])]))
    | Payment _ => Rejected
    end.

(** * Properties *)

(** ** Strings *)

Section StringFacts.

Local Open Scope string_scope.

Lemma starts_with_iff (p s : string) :
  starts_with p s = true <-> exists r, s = p ++ r.
Proof.
  revert s; induction p as [|a p IH]; intros s; simpl.
  - split; [intros _; now exists s | reflexivity].
  - destruct s as [|b s].
    + split; [discriminate | intros [r Hr]; discriminate].
    + rewrite andb_true_iff, Ascii.eqb_eq, IH. split.
      * intros [-> [r ->]]. now exists r.
      * intros [r Hr]. injection Hr as -> ->.
        split; [reflexivity | now exists r].
Qed.

Lemma drop_app (p r : string) : drop (String.length p) (p ++ r) = r.
Proof. induction p as [|a p IH]; simpl; [now destruct r | exact IH]. Qed.

Lemma append_assoc (a b c : string) : (a ++ b) ++ c = a ++ (b ++ c).
Proof. induction a as [|x a IH]; simpl; [reflexivity | now rewrite IH]. Qed.

Lemma append_length (a b : string) :
  String.length (a ++ b) = String.length a + String.length b.
Proof. induction a as [|x a IH]; simpl; [reflexivity | now rewrite IH]. Qed.

(** [includes] is substring containment. *)
Lemma includes_iff (s needle : string) :
  includes s needle = true <-> exists a b, s = a ++ needle ++ b.
Proof.
  induction s as [|c s IH]; simpl; rewrite orb_true_iff, starts_with_iff.
  - split.
    + intros [[r Hr] | H]; [now exists "", r | discriminate].
    + intros [a [b H]]. left. destruct a; [now exists b | discriminate].
  - rewrite IH. split.
    + intros [[r Hr] | [a [b H]]]; [now exists "", r |].
      exists (String c a), b. simpl. now rewrite H.
    + intros [a [b H]]. destruct a as [|x a]; simpl in H.
      * left. now exists b.
      * right. injection H as _ H. now exists a, b.
Qed.

Lemma includes_false (s needle : string) :
  includes s needle = false <-> forall a b, s <> a ++ needle ++ b.
Proof.
  rewrite <- not_true_iff_false, includes_iff. split.
  - intros H a b E. apply H. now exists a, b.
  - intros H [a [b E]]. exact (H a b E).
Qed.

(** A pattern at the very start is the occurrence that is replaced. *)
Lemma replace_leading (pat rep r : string) :
  replace pat rep (pat ++ r) = rep ++ r.
Proof.
  assert (H : starts_with pat (pat ++ r) = true)
    by (apply starts_with_iff; now exists r).
  destruct (pat ++ r) eqn:E; simpl; rewrite H; rewrite <- E;
    now rewrite drop_app.
Qed.

(** Without an occurrence, nothing is replaced. *)
Lemma replace_absent (pat rep s : string) :
  includes s pat = false -> replace pat rep s = s.
Proof.
  induction s as [|c s IH]; simpl; intros H;
    apply orb_false_iff in H as [H1 H2]; rewrite H1; [reflexivity|].
  now rewrite IH.
Qed.

(** It is the first occurrence that is replaced, wherever it stands: no
    occurrence starts before the one after [a]. *)
Lemma replace_first (pat rep a b : string) :
  (forall a' b', a ++ pat ++ b = a' ++ pat ++ b' ->
                 String.length a <= String.length a') ->
  replace pat rep (a ++ pat ++ b) = a ++ rep ++ b.
Proof.
  induction a as [|c a IH]; intros Hmin.
  - simpl. apply replace_leading.
  - simpl. destruct (starts_with pat (String c (a ++ pat ++ b))) eqn:E.
    + apply starts_with_iff in E as [r Hr].
      specialize (Hmin "" r). simpl in Hmin. specialize (Hmin Hr). lia.
    + rewrite IH; [reflexivity|].
      intros a' b' H. specialize (Hmin (String c a') b'). simpl in Hmin.
      rewrite H in Hmin. specialize (Hmin eq_refl). lia.
Qed.

End StringFacts.

Section FirstOccurrence.

Local Open Scope string_scope.

Lemma starts_with_shorter (p s t : string) :
  starts_with p (s ++ t) = true ->
  String.length p <= String.length s ->
  starts_with p s = true.
Proof.
  revert s; induction p as [|a p IH]; intros s H Hlen; [reflexivity|].
  destruct s as [|b s]; simpl in *; [lia|].
  apply andb_true_iff in H as [H1 H2].
  rewrite H1. simpl. apply IH; [exact H2 | lia].
Qed.

(** The occurrence after [a] is the first one when [pat] does not already
    occur in [a] followed by all of [pat] but its last character. *)
Lemma replace_inner (pat rep w rest a b : string) :
  pat = w ++ rest ->
  String.length rest <= 1 ->
  includes (a ++ w) pat = false ->
  replace pat rep (a ++ pat ++ b) = a ++ rep ++ b.
Proof.
  intros Hpat Hrest. induction a as [|c a IH]; intros Hno.
  - simpl. apply replace_leading.
  - simpl in Hno. apply orb_false_iff in Hno as [Hhead Htail].
    simpl.
    destruct (starts_with pat (String c (a ++ pat ++ b))) eqn:E.
    + exfalso. rewrite <- not_true_iff_false in Hhead. apply Hhead.
      apply (starts_with_shorter pat (String c (a ++ w)) (rest ++ b)).
      * simpl. rewrite append_assoc, <- (append_assoc w rest b), <- Hpat.
        exact E.
      * rewrite Hpat. simpl. rewrite !append_length. lia.
    + now rewrite (IH Htail).
Qed.

End FirstOccurrence.

(** ** Payment detector *)

(** [isX402] returns one of its two operands. *)
Lemma isX402_operand (data : value) :
  isX402 data =
    if truthy (opt_get data "x402Version")
    then opt_get data "accepts"
    else opt_get data "x402Version".
Proof. reflexivity. Qed.

Lemma isX402_truthy (data : value) :
  truthy (isX402 data) = true <->
  truthy (opt_get data "x402Version") = true /\
  truthy (opt_get data "accepts") = true.
Proof.
  rewrite isX402_operand.
  destruct (truthy (opt_get data "x402Version")) eqn:E.
  - tauto.
  - rewrite E. split; [discriminate | intros [H _]; discriminate].
Qed.

(** C7, the claim as stated fails: on the empty object the detector
    returns [undefined], which is not the boolean [false], and on a
    well-formed challenge it returns the [accepts] array, which is not the
    boolean [true]. *)
Lemma isX402_result_not_boolean :
  isX402 (Obj []) = Undefined /\
  isX402 (Obj []) <> Bool false /\
  isX402 (Obj [("x402Version", Num 1);
               ("accepts", Arr [Obj [("resource", Str "u")]])])
    <> Bool true.
Proof. repeat split; discriminate. Qed.

(** C7 (amended): the result of [isX402] is truthy iff its argument is an
    object whose own [x402Version] and [accepts] properties are both
    truthy; it is a total function (nothing throws), and its result is an
    operand of the conjunction rather than a boolean: [undefined] for
    [{}], [null] and [{x402Version: 1}], and the [accepts] array for
    [{x402Version: 1, accepts: [{resource: "u"}]}]. *)
Theorem isX402_truthy_iff_both_fields :
  (forall data : value,
     truthy (isX402 data) = true <->
     exists props version accepts,
       data = Obj props /\
       own "x402Version" props = Some version /\ truthy version = true /\
       own "accepts" props = Some accepts /\ truthy accepts = true) /\
  isX402 (Obj []) = Undefined /\
  isX402 Null = Undefined /\
  isX402 (Obj [("x402Version", Num 1)]) = Undefined /\
  isX402 (Obj [("x402Version", Num 1);
               ("accepts", Arr [Obj [("resource", Str "u")]])])
    = Arr [Obj [("resource", Str "u")]] /\
  truthy (Arr [Obj [("resource", Str "u")]]) = true /\
  truthy Undefined = false.
Proof.
  split; [|repeat split].
  intros data. rewrite isX402_truthy. split.
  - destruct data as [| | b | n | s | items | props]; simpl;
      try (intros [H _]; discriminate).
    intros [Hv Ha]. exists props.
    destruct (own "x402Version" props) as [version|]; [|discriminate].
    destruct (own "accepts" props) as [accepts|]; [|discriminate].
    now exists version, accepts.
  - intros (props & version & accepts & -> & Hv & Tv & Ha & Ta).
    simpl. now rewrite Hv, Ha.
Qed.

(** ** Domain filter *)

Section DomainFilter.

Variable URL_hostname : value -> option string.

Lemma keeps_unparsed (domain : string) (link : value) :
  URL_hostname link = None -> keeps URL_hostname domain link = false.
Proof. unfold keeps, same_site, host_of. now intros ->. Qed.

Lemma keeps_parsed (domain : string) (link : value) (hostname : string) :
  URL_hostname link = Some hostname ->
  keeps URL_hostname domain link =
    negb (existsb (fun s => includes (replace "www." "" hostname) s) socials)
    && includes (replace "www." "" hostname) (replace "www." "" domain).
Proof. unfold keeps, same_site, host_of. now intros ->. Qed.

Lemma filterUrls_app (a b : list value) (domain : string) :
  filterUrls URL_hostname (a ++ b) domain =
  filterUrls URL_hostname a domain ++ filterUrls URL_hostname b domain.
Proof. apply filter_app. Qed.

Lemma filterUrls_one (link : value) (domain : string) :
  filterUrls URL_hostname [link] domain =
  if keeps URL_hostname domain link then [link] else [].
Proof. reflexivity. Qed.

End DomainFilter.

(** C5, the claim as stated fails: the hostname [sub.www.example.com]
    does not begin with [www.], yet the host value compared by the filter
    is not the hostname: the [www.] inside it is removed. *)
Lemma host_of_inner_www_removed :
  plain_hostname (Str "https://sub.www.example.com/a")
    = Some "sub.www.example.com" /\
  starts_with "www." "sub.www.example.com" = false /\
  host_of plain_hostname (Str "https://sub.www.example.com/a")
    = Ok "sub.example.com" /\
  host_of plain_hostname (Str "https://sub.www.example.com/a")
    <> Ok "sub.www.example.com".
Proof. repeat split; discriminate. Qed.

(** C5 (amended): for every URL that parses, the host value used in domain
    comparisons, by the filter for each link and by the orchestrator for
    the target domain, is the hostname with its first occurrence of [www.]
    removed, wherever that occurrence stands: a leading [www.] is
    stripped, a hostname that nowhere contains [www.] is unchanged, and
    otherwise the leftmost [www.] inside the hostname is cut out. *)
Theorem host_of_removes_first_www
    (URL_hostname : value -> option string) (x : value) (hostname : string) :
  URL_hostname x = Some hostname ->
  host_of URL_hostname x = Ok (replace "www." "" hostname) /\
  (forall domain,
     same_site URL_hostname domain x =
       Ok (negb (existsb (fun s => includes (replace "www." "" hostname) s)
                    socials)
           && includes (replace "www." "" hostname)
                       (replace "www." "" domain))) /\
  (forall r, hostname = ("www." ++ r)%string ->
             replace "www." "" hostname = r) /\
  (includes hostname "www." = false ->
   replace "www." "" hostname = hostname) /\
  (forall a b, hostname = (a ++ "www." ++ b)%string ->
               includes (a ++ "www")%string "www." = false ->
               replace "www." "" hostname = (a ++ b)%string).
Proof.
  intros H. unfold same_site, host_of. rewrite H.
  split; [reflexivity|]. split; [reflexivity|]. split; [|split].
  - intros r ->. apply (replace_leading "www." "" r).
  - apply replace_absent.
  - intros a b -> Hno.
    apply (replace_inner "www." "" "www" "." a b); auto.
Qed.

(** On [https://www.example.com/b] the leading [www.] is stripped. *)
Lemma host_of_removes_first_www_witness :
  host_of plain_hostname (Str "https://www.example.com/b") = Ok "example.com".
Proof.
  exact (proj1 (host_of_removes_first_www plain_hostname
                  (Str "https://www.example.com/b") "www.example.com"
                  eq_refl)).
Defined.

(** C6, the claim as stated fails: the hostname [sub.www.example.com]
    has no leading [www.], and as it stands it does not contain the
    domain [sub.example]; a filter that strips a leading [www.] drops the
    link.  [filterUrls] keeps it: the [www.] inside the hostname is
    removed before the comparison. *)
Lemma filterUrls_keeps_inner_www_link :
  plain_hostname (Str "https://sub.www.example.com/a")
    = Some "sub.www.example.com" /\
  strip_leading_www "sub.www.example.com" = "sub.www.example.com" /\
  strip_leading_www "sub.example" = "sub.example" /\
  includes (strip_leading_www "sub.www.example.com")
           (strip_leading_www "sub.example") = false /\
  filterUrls plain_hostname [Str "https://sub.www.example.com/a"]
    "sub.example"
  = [Str "https://sub.www.example.com/a"].
Proof. repeat split. Qed.

(** C6 (amended): [filterUrls] is a stable filter: it maps a concatenation
    to the concatenation of the results, so order and repetitions are
    kept.  On a single link it answers the empty list when the link does
    not parse (nothing is thrown), or when its host value contains one of
    [github.com], [linkedin.com], [instagram.com], [twitter.com],
    [facebook.com], [youtube.com], [x.com]; otherwise it keeps the link
    exactly when its host value contains the host value of the target
    domain.  The host value of a name is the name with its first [www.]
    removed, wherever it stands: a leading one is cut, a name without
    [www.] is unchanged, an inner one is cut out; and to contain is to
    have as a substring.  On the four links of the example, parsed as the
    platform parses them, the result is the second and the third; and
    the link of [sub.www.example.com] is kept under [sub.example]. *)
Theorem filterUrls_stable_filter (URL_hostname : value -> option string) :
  (forall a b domain,
     filterUrls URL_hostname (a ++ b) domain =
     filterUrls URL_hostname a domain ++ filterUrls URL_hostname b domain) /\
  (forall link domain,
     URL_hostname link = None ->
     filterUrls URL_hostname [link] domain = []) /\
  (forall link domain hostname s,
     URL_hostname link = Some hostname ->
     In s ["github.com"; "linkedin.com"; "instagram.com"; "twitter.com";
           "facebook.com"; "youtube.com"; "x.com"] ->
     includes (replace "www." "" hostname) s = true ->
     filterUrls URL_hostname [link] domain = []) /\
  (forall link domain hostname,
     URL_hostname link = Some hostname ->
     (forall s,
        In s ["github.com"; "linkedin.com"; "instagram.com"; "twitter.com";
              "facebook.com"; "youtube.com"; "x.com"] ->
        includes (replace "www." "" hostname) s = false) ->
     filterUrls URL_hostname [link] domain =
       if includes (replace "www." "" hostname) (replace "www." "" domain)
       then [link] else []) /\
  (forall rest, replace "www." "" ("www." ++ rest)%string = rest) /\
  (forall name, includes name "www." = false ->
                replace "www." "" name = name) /\
  (forall a b, includes (a ++ "www")%string "www." = false ->
               replace "www." "" (a ++ "www." ++ b)%string
               = (a ++ b)%string) /\
  (forall s needle,
     includes s needle = true <->
     exists a b, s = (a ++ needle ++ b)%string) /\
  (URL_hostname (Str "https://github.com/x") = Some "github.com" ->
   URL_hostname (Str "https://sub.example.com/a") = Some "sub.example.com" ->
   URL_hostname (Str "https://www.example.com/b") = Some "www.example.com" ->
   URL_hostname (Str "not a url") = None ->
   filterUrls URL_hostname
     [Str "https://github.com/x"; Str "https://sub.example.com/a";
      Str "https://www.example.com/b"; Str "not a url"] "example.com"
   = [Str "https://sub.example.com/a"; Str "https://www.example.com/b"]) /\
  (URL_hostname (Str "https://sub.www.example.com/a")
     = Some "sub.www.example.com" ->
   filterUrls URL_hostname [Str "https://sub.www.example.com/a"]
     "sub.example"
   = [Str "https://sub.www.example.com/a"]).
Proof.
  split; [apply filterUrls_app|].
  split; [|split; [|split; [|split; [|split; [|split; [|split; [|split]]]]]]].
  - intros link domain H. rewrite filterUrls_one.
    now rewrite (keeps_unparsed _ _ _ H).
  - intros link domain hostname s H Hin Hs. rewrite filterUrls_one.
    rewrite (keeps_parsed _ _ _ _ H).
    assert (E : existsb (fun s => includes (replace "www." "" hostname) s)
                  socials = true)
      by (apply existsb_exists; now exists s).
    now rewrite E.
  - intros link domain hostname H Hno. rewrite filterUrls_one.
    rewrite (keeps_parsed _ _ _ _ H).
    assert (E : existsb (fun s => includes (replace "www." "" hostname) s)
                  socials = false).
    { apply not_true_iff_false. intros E.
      apply existsb_exists in E as [s [Hin Hs]].
      rewrite (Hno s Hin) in Hs. discriminate. }
    now rewrite E.
  - intros rest. apply replace_leading.
  - intros name. apply replace_absent.
  - intros a b Hno. apply (replace_inner "www." "" "www" "." a b); auto.
  - apply includes_iff.
  - intros H1 H2 H3 H4. unfold filterUrls. simpl.
    rewrite (keeps_parsed _ _ _ _ H1), (keeps_parsed _ _ _ _ H2),
      (keeps_parsed _ _ _ _ H3), (keeps_unparsed _ _ _ H4).
    reflexivity.
  - intros H. rewrite filterUrls_one, (keeps_parsed _ _ _ _ H).
    reflexivity.
Qed.

(** The example of C6 with the parser of plain URLs. *)
Lemma filterUrls_stable_filter_witness :
  filterUrls plain_hostname
    [Str "https://github.com/x"; Str "https://sub.example.com/a";
     Str "https://www.example.com/b"; Str "not a url"] "example.com"
  = [Str "https://sub.example.com/a"; Str "https://www.example.com/b"].
Proof.
  exact (proj1 (proj2 (proj2 (proj2 (proj2 (proj2 (proj2 (proj2 (proj2
           (filterUrls_stable_filter plain_hostname)))))))))
           eq_refl eq_refl eq_refl eq_refl).
Defined.

(** ** The effect monad *)

(** [pay], case by case. *)
Lemma pay_run (x402 : value) (net : network) (t : trace) :
  pay x402 net t =
    if truthy (resource_of x402) then
      if convertible (resource_of x402) then
        (Ok (status_of
               (net (t ++ [PayCalled x402]) (Payment (resource_of x402)))),
         [PayCalled x402; Sent (Payment (resource_of x402))])
      else (Throw TypeError, [PayCalled x402])
    else (Ok false, [PayCalled x402]).
Proof.
  unfold pay, bind, record, template, try_catch, fetch, ret, throw.
  destruct (truthy (resource_of x402)); simpl; [|reflexivity].
  destruct (convertible (resource_of x402)); simpl; [|reflexivity].
  rewrite app_nil_r.
  destruct (net (t ++ [PayCalled x402]) (Payment (resource_of x402)));
    reflexivity.
Qed.


Lemma bind_ret {A B} (a : A) (k : A -> M B) (net : network) (t : trace) :
  bind (ret a) k net t = k a net t.
Proof. unfold bind, ret. rewrite app_nil_r. now destruct (k a net t). Qed.

Lemma bind_fetch {B} (r : request) (k : fetched -> M B) (net : network)
    (t : trace) :
  bind (fetch r) k net t =
    match net t r with
    | Rejected => (Throw FetchError, [Sent r])
    | Reply ok body =>
        let (x, d) := k (ok, body) net (t ++ [Sent r]) in (x, Sent r :: d)
    end.
Proof. unfold bind, fetch. now destruct (net t r). Qed.

Lemma bind_json {B} (ok : bool) (body : option value) (k : value -> M B)
    (net : network) (t : trace) :
  bind (json (ok, body)) k net t =
    match body with
    | Some data => k data net t
    | None => (Throw SyntaxError, [])
    end.
Proof. destruct body; [apply bind_ret | reflexivity]. Qed.

(** A url that cannot be encoded: a URIError, and no request. *)
Lemma getLinks_malformed (fuel : nat) (url : string) (retry : bool)
    (net : network) (t : trace) :
  isWellFormed url = false ->
  getLinks (S fuel) url retry net t = (Throw URIError, []).
Proof.
  intros H. cbn [getLinks]. unfold encodeURIComponent. now rewrite H.
Qed.

Lemma getLinks_step (fuel : nat) (url : string) (retry : bool)
    (net : network) (t : trace) :
  isWellFormed url = true ->
  getLinks (S fuel) url retry net t =
    (res <- fetch (Links url) ;;
     data <- json res ;;
     if truthy (isX402 data) then
       paid <- (if retry then pay data else ret false) ;;
       if paid then getLinks fuel url false else ret data
     else ret data) net t.
Proof.
  intros H.
  change (getLinks (S fuel) url retry) with
    (encodeURIComponent url ;;
     res <- fetch (Links url) ;;
     data <- json res ;;
     if truthy (isX402 data) then
       paid <- (if retry then pay data else ret false) ;;
       if paid then getLinks fuel url false else ret data
     else ret data).
  unfold encodeURIComponent. rewrite H.
  match goal with
  | |- bind (ret tt) ?k net t = _ => exact (bind_ret tt k net t)
  end.
Qed.

(** Without retry: one request, whose outcome is passed on. *)
Lemma getLinks_no_retry (fuel : nat) (url : string) (net : network)
    (t : trace) :
  isWellFormed url = true ->
  getLinks (S fuel) url false net t =
    (body_of (net t (Links url)), [Sent (Links url)]).
Proof.
  intros Hurl. rewrite (getLinks_step _ _ _ _ _ Hurl), bind_fetch.
  destruct (net t (Links url)) as [|ok [data|]]; try reflexivity.
  rewrite bind_json.
  destruct (truthy (isX402 data)); [rewrite bind_ret|]; reflexivity.
Qed.

Lemma extractText_step (fuel : nat) (urls : list value) (domain : string)
    (retry : bool) :
  extractText (S fuel) urls domain retry =
    (res <- fetch (Extract urls domain) ;;
     data <- json res ;;
     if truthy (isX402 data) then
       paid <- (if retry then pay data else ret false) ;;
       if paid then extractText fuel urls domain false else ret data
     else
       results <- get data "results" ;;
       if truthy results && retry then
         x402Results <- array_filter isX402 results ;;
         if (0 <? List.length x402Results)%nat then
           for_of x402Results pay ;;
           extractText fuel urls domain false
         else ret data
       else ret data).
Proof. reflexivity. Qed.

Lemma nullish_not_x402 (data : value) :
  nullish data = true -> truthy (isX402 data) = false.
Proof. now destruct data. Qed.

Lemma bind_get {B} (data : value) (k : string) (f : value -> M B)
    (net : network) (t : trace) :
  bind (get data k) f net t =
    if nullish data then (Throw TypeError, []) else f (opt_get data k) net t.
Proof. unfold get. destruct (nullish data); [reflexivity | apply bind_ret]. Qed.

Lemma extractText_no_retry (fuel : nat) (urls : list value) (domain : string)
    (net : network) (t : trace) :
  extractText (S fuel) urls domain false net t =
    (unretried (net t (Extract urls domain)), [Sent (Extract urls domain)]).
Proof.
  rewrite extractText_step, bind_fetch. unfold unretried.
  destruct (net t (Extract urls domain)) as [|ok [data|]]; try reflexivity.
  rewrite bind_json. simpl body_of.
  destruct (truthy (isX402 data)) eqn:Hx.
  - rewrite bind_ret.
    destruct (nullish data) eqn:Hn; [|reflexivity].
    rewrite (nullish_not_x402 _ Hn) in Hx. discriminate.
  - rewrite bind_get. destruct (nullish data); [reflexivity|].
    now rewrite andb_false_r.
Qed.

Lemma extractText_run (fuel : nat) (urls : list value) (domain : string)
    (net : network) (t : trace) :
  let r := Extract urls domain in
  let replay (dp : trace) :=
    (unretried (net (t ++ [Sent r] ++ dp) r), [Sent r] ++ dp ++ [Sent r]) in
  extractText (S (S fuel)) urls domain true net t =
    match net t r with
    | Rejected => (Throw FetchError, [Sent r])
    | Reply _ None => (Throw SyntaxError, [Sent r])
    | Reply _ (Some data) =>
        if truthy (isX402 data) then
          match pay data net (t ++ [Sent r]) with
          | (Ok true, dp) => replay dp
          | (Ok false, dp) => (Ok data, [Sent r] ++ dp)
          | (Throw e, dp) => (Throw e, [Sent r] ++ dp)
          | (OutOfFuel, dp) => (OutOfFuel, [Sent r] ++ dp)
          end
        else if nullish data then (Throw TypeError, [Sent r])
        else if truthy (opt_get data "results") then
          match opt_get data "results" with
          | Arr items =>
              match challenges items with
              | [] => (Ok data, [Sent r])
              | found =>
                  match for_of found pay net (t ++ [Sent r]) with
                  | (Ok _, dp) => replay dp
                  | (Throw e, dp) => (Throw e, [Sent r] ++ dp)
                  | (OutOfFuel, dp) => (OutOfFuel, [Sent r] ++ dp)
                  end
              end
          | _ => (Throw TypeError, [Sent r])
          end
        else (Ok data, [Sent r])
    end.
Proof.
  intros r replay. subst replay r.
  rewrite extractText_step, bind_fetch.
  destruct (net t (Extract urls domain)) as [|ok [data|]]; try reflexivity.
  rewrite bind_json.
  destruct (truthy (isX402 data)) eqn:Hx.
  - unfold bind.
    destruct (pay data net (t ++ [Sent (Extract urls domain)]))
      as [[[|]|e|] dp]; cbv beta iota.
    + rewrite extractText_no_retry, <- app_assoc. reflexivity.
    + unfold ret. now rewrite app_nil_r.
    + reflexivity.
    + reflexivity.
  - rewrite bind_get. destruct (nullish data); [reflexivity|].
    rewrite andb_true_r.
    destruct (truthy (opt_get data "results")) eqn:Hr; [|reflexivity].
    destruct (opt_get data "results") as [| | b | n | s | items | props];
      try reflexivity.
    unfold array_filter. rewrite bind_ret. fold (challenges items).
    destruct (challenges items) as [|x xs]; [reflexivity|].
    cbn [List.length Nat.ltb Nat.leb]. unfold bind.
    destruct (for_of (x :: xs) pay net (t ++ [Sent (Extract urls domain)]))
      as [[[]|e|] dp]; cbv beta iota.
    + rewrite extractText_no_retry, <- app_assoc. reflexivity.
    + reflexivity.
    + reflexivity.
Qed.

Lemma getLinks_run (fuel : nat) (url : string) (net : network) (t : trace) :
  isWellFormed url = true ->
  let r := Links url in
  getLinks (S (S fuel)) url true net t =
    match net t r with
    | Rejected => (Throw FetchError, [Sent r])
    | Reply _ None => (Throw SyntaxError, [Sent r])
    | Reply _ (Some data) =>
        if truthy (isX402 data) then
          match pay data net (t ++ [Sent r]) with
          | (Ok true, dp) =>
              (body_of (net (t ++ [Sent r] ++ dp) r),
               [Sent r] ++ dp ++ [Sent r])
          | (Ok false, dp) => (Ok data, [Sent r] ++ dp)
          | (Throw e, dp) => (Throw e, [Sent r] ++ dp)
          | (OutOfFuel, dp) => (OutOfFuel, [Sent r] ++ dp)
          end
        else (Ok data, [Sent r])
    end.
Proof.
  intros Hurl r. subst r. rewrite (getLinks_step _ _ _ _ _ Hurl), bind_fetch.
  destruct (net t (Links url)) as [|ok [data|]]; try reflexivity.
  rewrite bind_json.
  destruct (truthy (isX402 data)); [|reflexivity].
  unfold bind.
  destruct (pay data net (t ++ [Sent (Links url)])) as [[[|]|e|] dp];
    cbv beta iota.
  - rewrite (getLinks_no_retry _ _ _ _ Hurl), <- app_assoc. reflexivity.
  - unfold ret. now rewrite app_nil_r.
  - reflexivity.
  - reflexivity.
Qed.

Lemma count_app (p : event -> bool) (a b : trace) :
  count p (a ++ b) = count p a + count p b.
Proof. unfold count. now rewrite filter_app, length_app. Qed.

Lemma links_sent_app (a b : trace) :
  links_sent (a ++ b) = links_sent a + links_sent b.
Proof. apply count_app. Qed.

Lemma extracts_sent_app (a b : trace) :
  extracts_sent (a ++ b) = extracts_sent a + extracts_sent b.
Proof. apply count_app. Qed.

Lemma payments_sent_app (a b : trace) :
  payments_sent (a ++ b) = payments_sent a + payments_sent b.
Proof. apply count_app. Qed.

Lemma paid_items_app (a b : trace) :
  paid_items (a ++ b) = paid_items a ++ paid_items b.
Proof.
  induction a as [|[r|x] a IH]; simpl;
    [reflexivity | exact IH | now rewrite IH].
Qed.

(** What [pay] adds to the trace: its own entry, then at most one payment
    request and nothing else; it never recurses. *)
Lemma pay_trace (x402 : value) (net : network) (t : trace) :
  fst (pay x402 net t) <> OutOfFuel /\
  paid_items (snd (pay x402 net t)) = [x402] /\
  links_sent (snd (pay x402 net t)) = 0 /\
  extracts_sent (snd (pay x402 net t)) = 0 /\
  payments_sent (snd (pay x402 net t)) <= 1.
Proof.
  rewrite pay_run.
  destruct (truthy (resource_of x402)), (convertible (resource_of x402));
    cbn; repeat split; try discriminate; auto.
Qed.

Lemma bind_run {A B} (m : M A) (k : A -> M B) (net : network) (t : trace) :
  bind m k net t =
    match m net t with
    | (Ok a, d) => (fst (k a net (t ++ d)), d ++ snd (k a net (t ++ d)))
    | (Throw e, d) => (Throw e, d)
    | (OutOfFuel, d) => (OutOfFuel, d)
    end.
Proof.
  unfold bind. destruct (m net t) as [[a|e|] d]; try reflexivity.
  now destruct (k a net (t ++ d)).
Qed.

Lemma for_of_pay_trace (xs : list value) (net : network) (t : trace) :
  fst (for_of xs pay net t) <> OutOfFuel /\
  links_sent (snd (for_of xs pay net t)) = 0 /\
  extracts_sent (snd (for_of xs pay net t)) = 0.
Proof.
  revert t; induction xs as [|x xs IH]; intros t.
  - cbn. repeat split; discriminate.
  - cbn [for_of]. rewrite bind_run.
    destruct (pay_trace x net t) as (Hf & _ & Hl & He & _).
    destruct (pay x net t) as [[b|e|] d]; cbn [fst snd] in *.
    + destruct (IH (t ++ d)) as (Hf' & Hl' & He').
      rewrite links_sent_app, extracts_sent_app, Hl, He. auto.
    + repeat split; auto; discriminate.
    + contradiction.
Qed.

(** ** Payment executor *)

(** [pay] swallows every failure of the request itself. *)
Lemma pay_never_throws_when_payable (x402 : value) (net : network) (t : trace) :
  payable x402 = true ->
  pay x402 net t =
    if truthy (resource_of x402) then
      (Ok (status_of
             (net (t ++ [PayCalled x402]) (Payment (resource_of x402)))),
       [PayCalled x402; Sent (Payment (resource_of x402))])
    else (Ok false, [PayCalled x402]).
Proof.
  unfold payable. intros H. rewrite pay_run.
  destruct (truthy (resource_of x402)); [|reflexivity].
  simpl in H. now rewrite H.
Qed.

(** C4: on a challenge whose resource is an object with an own
    [toString] property, [pay] throws a TypeError: the log line that
    interpolates the resource stands before the [try].  No request is
    made. *)
Theorem pay_throws_on_unprintable_resource (net : network) (t : trace) :
  truthy (resource_of (challenge_for (Obj [("toString", Num 1)]))) = true /\
  pay (challenge_for (Obj [("toString", Num 1)])) net t =
    (Throw TypeError, [PayCalled (challenge_for (Obj [("toString", Num 1)]))]).
Proof. split; [reflexivity | now rewrite pay_run]. Qed.

(** ** Link fetcher *)

(** X16: for a url that can be encoded, when the body of the
    link-discovery response is a payment challenge and a retry is
    allowed, [getLinks] calls [pay] exactly once, on that challenge.  If
    [pay] answers [true], the call returns what one replayed [getLinks]
    without retry returns, and that replay is a single link-discovery
    request whose outcome it passes on.  If [pay] answers [false], the
    call returns the challenge itself, and the events of [pay] are the
    last of the trace: one link-discovery request in all. *)
Theorem getLinks_pays_once_then_replays_once
    (fuel : nat) (url : string) (net : network) (t : trace)
    (ok : bool) (data : value) :
  isWellFormed url = true ->
  net t (Links url) = Reply ok (Some data) ->
  truthy (isX402 data) = true ->
  let run := getLinks (S (S fuel)) url true net t in
  paid_items (snd run) = [data] /\
  (forall dp,
     pay data net (t ++ [Sent (Links url)]) = (Ok true, dp) ->
     let replay :=
       getLinks (S fuel) url false net (t ++ [Sent (Links url)] ++ dp) in
     run = (fst replay, [Sent (Links url)] ++ dp ++ snd replay) /\
     replay = (body_of (net (t ++ [Sent (Links url)] ++ dp) (Links url)),
               [Sent (Links url)]) /\
     links_sent (snd run) = 2) /\
  (forall dp,
     pay data net (t ++ [Sent (Links url)]) = (Ok false, dp) ->
     run = (Ok data, [Sent (Links url)] ++ dp) /\
     links_sent (snd run) = 1).
Proof.
  intros Hurl Hnet Hx run. subst run.
  rewrite (getLinks_run _ _ _ _ Hurl). cbv zeta. rewrite Hnet, Hx.
  destruct (pay_trace data net (t ++ [Sent (Links url)]))
    as (_ & Hpaid & Hlinks & _).
  destruct (pay data net (t ++ [Sent (Links url)])) as [[[|]|e|] dp];
    cbn [fst snd] in *.
  - split; [|split].
    + rewrite !paid_items_app, Hpaid. reflexivity.
    + intros dp' E. injection E as <-.
      rewrite (getLinks_no_retry _ _ _ _ Hurl). cbn [fst snd].
      repeat split. rewrite !links_sent_app, Hlinks. reflexivity.
    + intros dp' E. discriminate.
  - split; [|split].
    + rewrite !paid_items_app, Hpaid. reflexivity.
    + intros dp' E. discriminate.
    + intros dp' E. injection E as <-. split; [reflexivity|].
      rewrite links_sent_app, Hlinks. reflexivity.
  - split; [|split]; try (intros dp' E; discriminate).
    rewrite !paid_items_app, Hpaid. reflexivity.
  - split; [|split]; try (intros dp' E; discriminate).
    rewrite !paid_items_app, Hpaid. reflexivity.
Qed.

(** The scenario of the specification: a challenge, a payment that
    succeeds, then the links. *)
Lemma getLinks_pays_once_then_replays_once_witness :
  paid_items
    (snd (getLinks 2 "https://example.com" true (paywalled_links true) []))
  = [challenge_for (Str "u")].
Proof.
  exact (proj1 (getLinks_pays_once_then_replays_once
                  0 "https://example.com" (paywalled_links true) []
                  false (challenge_for (Str "u")) eq_refl eq_refl eq_refl)).
Defined.

(** C1: on a link-discovery response that is a challenge whose resource
    is an object with an own [toString] property, [pay] is called once
    and throws; [getLinks] rejects with that TypeError after its single
    request: it returns neither the challenge nor a replayed response. *)
Theorem getLinks_rejects_when_pay_throws (fuel : nat) (t : trace) :
  truthy (isX402 (challenge_for (Obj [("toString", Num 1)]))) = true /\
  getLinks (S (S fuel)) "https://example.com" true
      (answering (challenge_for (Obj [("toString", Num 1)]))) t =
    (Throw TypeError,
     [Sent (Links "https://example.com");
      PayCalled (challenge_for (Obj [("toString", Num 1)]))]).
Proof.
  split; [reflexivity|].
  now rewrite (getLinks_run _ "https://example.com" _ _ eq_refl).
Qed.

(** A url with a lone surrogate is refused before any request; the last
    code point before the surrogates, [U+D7FF], is not. *)
Example getLinks_lone_surrogate :
  isWellFormed lone_surrogate = false /\
  isWellFormed
    (String (ascii_of_nat 237)
       (String (ascii_of_nat 159) (String (ascii_of_nat 191) ""))) = true /\
  getLinks 2 lone_surrogate true (paywalled_links true) [] =
    (Throw URIError, []).
Proof. repeat split. Qed.

Example getLinks_paid :
  getLinks 2 "https://example.com" true (paywalled_links true) [] =
    (Ok (Obj [("links", Arr [Str "a"])]),
     [Sent (Links "https://example.com");
      PayCalled (challenge_for (Str "u"));
      Sent (Payment (Str "u"));
      Sent (Links "https://example.com")]).
Proof. reflexivity. Qed.

Example getLinks_unpaid :
  getLinks 2 "https://example.com" true (paywalled_links false) [] =
    (Ok (challenge_for (Str "u")),
     [Sent (Links "https://example.com");
      PayCalled (challenge_for (Str "u"));
      Sent (Payment (Str "u"))]).
Proof. reflexivity. Qed.

(** C9: the value [{x402Version: 1, accepts: []}] is detected as a payment
    challenge, [pay] answers [false] on it without any request, and
    [getLinks], when it is the response to its request, returns it
    unchanged after that single link-discovery request, with no payment
    request.  (A request is made unless the url cannot be encoded; there
    is no response then, and [getLinks] throws a URIError.) *)
Theorem empty_options_detected_not_payable :
  truthy (isX402 empty_options) = true /\
  (forall net t,
     pay empty_options net t = (Ok false, [PayCalled empty_options])) /\
  (forall fuel url net t ok,
     net t (Links url) = Reply ok (Some empty_options) ->
     getLinks (S fuel) url true net t =
       if isWellFormed url
       then (Ok empty_options, [Sent (Links url); PayCalled empty_options])
       else (Throw URIError, [])).
Proof.
  split; [reflexivity|]. split.
  - intros net t. now rewrite pay_run.
  - intros fuel url net t ok Hnet.
    destruct (isWellFormed url) eqn:Hurl;
      [|now apply getLinks_malformed].
    rewrite (getLinks_step _ _ _ _ _ Hurl), bind_fetch, Hnet, bind_json.
    change (truthy (isX402 empty_options)) with true. cbv iota.
    rewrite bind_run, pay_run. reflexivity.
Qed.

(** A server that answers the challenge with no option. *)
Lemma empty_options_detected_not_payable_witness :
  getLinks 1 "https://example.com" true (answering empty_options) [] =
    (Ok empty_options,
     [Sent (Links "https://example.com"); PayCalled empty_options]).
Proof.
  exact (proj2 (proj2 empty_options_detected_not_payable)
           0 "https://example.com" (answering empty_options) [] false
           eq_refl).
Defined.

(** ** Text extractor *)

Lemma for_of_pay_all (xs : list value) (net : network) (t : trace) :
  forallb payable xs = true ->
  fst (for_of xs pay net t) = Ok tt /\
  paid_items (snd (for_of xs pay net t)) = xs.
Proof.
  revert t; induction xs as [|x xs IH]; intros t H; [now cbn|].
  cbn [forallb] in H. apply andb_true_iff in H as [Hx Hxs].
  cbn [for_of]. rewrite bind_run.
  destruct (pay_trace x net t) as (_ & Hp & _).
  rewrite (pay_never_throws_when_payable x net t Hx) in *.
  destruct (truthy (resource_of x)); cbn [fst snd] in *;
    match goal with
    | |- context [for_of xs pay net ?t'] => destruct (IH t' Hxs) as [H1 H2]
    end;
    rewrite paid_items_app, H2; split; auto.
Qed.

(** The loop of [extractText] stops at the first challenge on which [pay]
    throws: the challenges after it are not paid for. *)
Lemma for_of_pay_stops (xs : list value) (x : value) (rest : list value)
    (net : network) (t : trace) :
  forallb payable xs = true ->
  payable x = false ->
  fst (for_of (xs ++ x :: rest) pay net t) = Throw TypeError /\
  paid_items (snd (for_of (xs ++ x :: rest) pay net t)) = xs ++ [x].
Proof.
  revert t; induction xs as [|y xs IH]; intros t H Hx.
  - cbn [app for_of]. rewrite bind_run, pay_run.
    unfold payable in Hx. apply orb_false_iff in Hx as [H1 H2].
    apply negb_false_iff in H1. rewrite H1, H2. now cbn.
  - cbn [forallb] in H. apply andb_true_iff in H as [Hy Hxs].
    cbn [app for_of]. rewrite bind_run.
    rewrite (pay_never_throws_when_payable y net t Hy).
    destruct (truthy (resource_of y)); cbn [fst snd];
      match goal with
      | |- context [for_of _ pay net ?t'] =>
          destruct (IH t' Hxs Hx) as [H1 H2]
      end;
      rewrite paid_items_app, H2; split; auto.
Qed.

Lemma getLinks_sends_no_extract (fuel : nat) (url : string) (retry : bool)
    (net : network) (t : trace) :
  extracts_sent (snd (getLinks fuel url retry net t)) = 0.
Proof.
  revert retry t; induction fuel as [|fuel IH]; intros retry t;
    [reflexivity|].
  destruct (isWellFormed url) eqn:Hurl;
    [|now rewrite (getLinks_malformed _ _ _ _ _ Hurl)].
  rewrite (getLinks_step _ _ _ _ _ Hurl), bind_fetch.
  destruct (net t (Links url)) as [|ok [data|]]; try reflexivity.
  rewrite bind_json.
  destruct (getLinks fuel url false net (t ++ [Sent (Links url)])) eqn:E0.
  destruct (truthy (isX402 data)); [|reflexivity].
  rewrite bind_run.
  destruct retry.
  - destruct (pay_trace data net (t ++ [Sent (Links url)]))
      as (_ & _ & _ & He & _).
    destruct (pay data net (t ++ [Sent (Links url)])) as [[[|]|e|] dp];
      cbn [fst snd] in *; try exact He.
    + change (extracts_sent (Sent (Links url) :: ?d)) with (extracts_sent d).
      rewrite extracts_sent_app, He. apply IH.
    + change (extracts_sent (Sent (Links url) :: ?d)) with (extracts_sent d).
      now rewrite extracts_sent_app, He.
  - cbn. reflexivity.
Qed.

(** X2: when [pay] throws on none of the challenges found among the results,
    [extractText] calls it on each of them, in order, whatever each call
    answers, then replays the extraction once and returns what the replay
    returns. *)
Lemma extractText_pays_every_challenge
    (fuel : nat) (urls : list value) (domain : string) (net : network)
    (t : trace) (ok : bool) (data : value) (items : list value) :
  net t (Extract urls domain) = Reply ok (Some data) ->
  truthy (isX402 data) = false ->
  opt_get data "results" = Arr items ->
  challenges items <> [] ->
  forallb payable (challenges items) = true ->
  let r := Extract urls domain in
  let payments := snd (for_of (challenges items) pay net (t ++ [Sent r])) in
  let replay :=
    extractText (S fuel) urls domain false net (t ++ [Sent r] ++ payments) in
  paid_items payments = challenges items /\
  extracts_sent payments = 0 /\
  extractText (S (S fuel)) urls domain true net t =
    (fst replay, [Sent r] ++ payments ++ snd replay) /\
  replay = (unretried (net (t ++ [Sent r] ++ payments) r), [Sent r]).
Proof.
  intros Hnet Hx Hres Hne Hpay r payments replay.
  subst replay payments r.
  destruct (for_of_pay_all _ net (t ++ [Sent (Extract urls domain)]) Hpay)
    as [Hok Hpaid].
  destruct (for_of_pay_trace (challenges items) net
              (t ++ [Sent (Extract urls domain)])) as (_ & _ & He).
  rewrite extractText_no_retry. cbn [fst snd].
  repeat split; auto.
  rewrite extractText_run. cbv zeta. rewrite Hnet, Hx.
  assert (Hn : nullish data = false)
    by (destruct data; try reflexivity; discriminate).
  rewrite Hn, Hres. cbn [truthy].
  destruct (challenges items) as [|x xs] eqn:Ec; [contradiction|].
  destruct (for_of (x :: xs) pay net (t ++ [Sent (Extract urls domain)]))
    as [[[]|e|] dp]; cbn [fst snd] in *; try discriminate.
  reflexivity.
Qed.

(** C2: on a response whose results hold two challenges, the first with a
    resource that is an object with an own [toString] property, [pay]
    throws on the first challenge; [extractText] rejects with that
    TypeError, the second challenge is never paid for and the extraction
    is not replayed. *)
Theorem extractText_aborts_when_pay_throws
    (fuel : nat) (paid : bool) (t : trace) :
  truthy (isX402 mixed_results) = false /\
  challenges
    [Obj [("url", Str "a"); ("text", Str "t")];
     challenge_for (Obj [("toString", Num 1)]);
     challenge_for (Str "b")]
  = [challenge_for (Obj [("toString", Num 1)]); challenge_for (Str "b")] /\
  extractText (S (S fuel)) [Str "a"; Str "b"; Str "c"] "example.com" true
      (extraction_server mixed_results paid) t =
    (Throw TypeError,
     [Sent (Extract [Str "a"; Str "b"; Str "c"] "example.com");
      PayCalled (challenge_for (Obj [("toString", Num 1)]))]).
Proof.
  split; [reflexivity|]. split; [reflexivity|].
  rewrite extractText_run. reflexivity.
Qed.

Example extractText_sample :
  extractText 2 [Str "a"; Str "b"] "example.com" true
    (extraction_server
       (Obj [("results", Arr [Obj [("url", Str "a"); ("text", Str "t")];
                              challenge_for (Str "b")])]) true) [] =
    (Ok (Obj [("results", Arr [Obj [("url", Str "a"); ("text", Str "t")];
                               challenge_for (Str "b")])]),
     [Sent (Extract [Str "a"; Str "b"] "example.com");
      PayCalled (challenge_for (Str "b"));
      Sent (Payment (Str "b"));
      Sent (Extract [Str "a"; Str "b"] "example.com")]).
Proof. reflexivity. Qed.

(** ** The retry cap *)

Lemma getLinks_fuel (fuel : nat) (url : string) (net : network) (t : trace) :
  getLinks (S (S fuel)) url true net t = getLinks 2 url true net t.
Proof.
  destruct (isWellFormed url) eqn:Hurl.
  - now rewrite !(getLinks_run _ _ _ _ Hurl).
  - now rewrite !(getLinks_malformed _ _ _ _ _ Hurl).
Qed.

Lemma extractText_fuel (fuel : nat) (urls : list value) (domain : string)
    (net : network) (t : trace) :
  extractText (S (S fuel)) urls domain true net t =
  extractText 2 urls domain true net t.
Proof. now rewrite !extractText_run. Qed.

Lemma getLinks_bounded (fuel : nat) (url : string) (net : network) (t : trace) :
  fst (getLinks (S (S fuel)) url true net t) <> OutOfFuel /\
  links_sent (snd (getLinks (S (S fuel)) url true net t)) <= 2 /\
  extracts_sent (snd (getLinks (S (S fuel)) url true net t)) = 0.
Proof.
  destruct (isWellFormed url) eqn:Hurl;
    [|rewrite (getLinks_malformed _ _ _ _ _ Hurl); cbn;
      split; [discriminate | split; auto]].
  rewrite (getLinks_run _ _ _ _ Hurl). cbv zeta.
  destruct (net t (Links url)) as [|ok [data|]];
    try (cbn; repeat split; try discriminate; auto; fail).
  destruct (truthy (isX402 data));
    [|cbn; repeat split; try discriminate; auto].
  destruct (pay_trace data net (t ++ [Sent (Links url)]))
    as (Hf & _ & Hl & He & _).
  destruct (pay data net (t ++ [Sent (Links url)])) as [[[|]|e|] dp];
    cbn [fst snd] in *;
    rewrite ?links_sent_app, ?extracts_sent_app, Hl, He;
    repeat split; try discriminate; try contradiction; cbn; auto.
  destruct (net (t ++ Sent (Links url) :: dp) (Links url)) as [|ok' [d'|]];
    discriminate.
Qed.

Lemma unretried_not_fuel (r : response) : unretried r <> OutOfFuel.
Proof.
  unfold unretried. destruct r as [|ok [data|]]; cbn; try discriminate.
  destruct (nullish data); discriminate.
Qed.

Lemma extractText_bounded (fuel : nat) (urls : list value) (domain : string)
    (net : network) (t : trace) :
  fst (extractText (S (S fuel)) urls domain true net t) <> OutOfFuel /\
  extracts_sent (snd (extractText (S (S fuel)) urls domain true net t)) <= 2 /\
  links_sent (snd (extractText (S (S fuel)) urls domain true net t)) = 0.
Proof.
  rewrite extractText_run. cbv zeta.
  set (r := Extract urls domain).
  assert (Hdone : forall A (x : result A),
            x <> OutOfFuel ->
            fst (x, [Sent r]) <> OutOfFuel /\
            extracts_sent (snd (x, [Sent r])) <= 2 /\
            links_sent (snd (x, [Sent r])) = 0)
    by (intros A x Hx; cbn; auto).
  assert (Hreplay : forall dp,
            links_sent dp = 0 -> extracts_sent dp = 0 ->
            fst (unretried (net (t ++ [Sent r] ++ dp) r),
                 [Sent r] ++ dp ++ [Sent r]) <> OutOfFuel /\
            extracts_sent (snd (unretried (net (t ++ [Sent r] ++ dp) r),
                 [Sent r] ++ dp ++ [Sent r])) <= 2 /\
            links_sent (snd (unretried (net (t ++ [Sent r] ++ dp) r),
                 [Sent r] ++ dp ++ [Sent r])) = 0).
  { intros dp Hl He. cbn [fst snd].
    rewrite !links_sent_app, !extracts_sent_app, Hl, He.
    split; [apply unretried_not_fuel | cbn; auto]. }
  assert (Hstop : forall A (x : result A) dp,
            x <> OutOfFuel ->
            links_sent dp = 0 -> extracts_sent dp = 0 ->
            fst (x, [Sent r] ++ dp) <> OutOfFuel /\
            extracts_sent (snd (x, [Sent r] ++ dp)) <= 2 /\
            links_sent (snd (x, [Sent r] ++ dp)) = 0).
  { intros A x dp Hx Hl He. cbn [fst snd].
    rewrite !links_sent_app, !extracts_sent_app, Hl, He. cbn; auto. }
  destruct (net t r) as [|ok [data|]]; try (apply Hdone; discriminate).
  destruct (truthy (isX402 data)).
  - destruct (pay_trace data net (t ++ [Sent r])) as (Hf & _ & Hl & He & _).
    destruct (pay data net (t ++ [Sent r])) as [[[|]|e|] dp];
      cbn [fst snd] in Hf, Hl, He.
    + now apply Hreplay.
    + apply Hstop; auto; discriminate.
    + apply Hstop; auto; discriminate.
    + contradiction.
  - destruct (nullish data); [apply Hdone; discriminate|].
    destruct (truthy (opt_get data "results"));
      [|apply Hdone; discriminate].
    destruct (opt_get data "results") as [| | b | n | s | items | props];
      try (apply Hdone; discriminate).
    destruct (challenges items) as [|x xs]; [apply Hdone; discriminate|].
    destruct (for_of_pay_trace (x :: xs) net (t ++ [Sent r]))
      as (Hf & Hl & He).
    destruct (for_of (x :: xs) pay net (t ++ [Sent r])) as [[[]|e|] dp];
      cbn [fst snd] in Hf, Hl, He.
    + now apply Hreplay.
    + apply Hstop; auto; discriminate.
    + contradiction.
Qed.

(** C3: with the default flag, a call of [getLinks] or of [extractText]
    ends within a recursion of depth two (a budget of two is as good as
    any larger one, and is never exhausted) and sends at most two
    requests to its endpoint; the replay, made with the flag off, sends
    exactly one request and never calls [pay], whatever the replayed
    response holds, payment challenges included.  (A call of [getLinks]
    on a url that cannot be encoded sends no request at all.) *)
Theorem retry_at_most_once
    (fuel : nat) (url : string) (urls : list value) (domain : string)
    (net : network) (t : trace) :
  let links_run := getLinks (S (S fuel)) url true net t in
  let extract_run := extractText (S (S fuel)) urls domain true net t in
  (fst links_run <> OutOfFuel /\
   links_run = getLinks 2 url true net t /\
   links_sent (snd links_run) <= 2) /\
  (fst extract_run <> OutOfFuel /\
   extract_run = extractText 2 urls domain true net t /\
   extracts_sent (snd extract_run) <= 2) /\
  (snd (getLinks (S fuel) url false net t)
     = (if isWellFormed url then [Sent (Links url)] else []) /\
   snd (extractText (S fuel) urls domain false net t)
     = [Sent (Extract urls domain)]).
Proof.
  cbv zeta.
  destruct (getLinks_bounded fuel url net t) as (H1 & H2 & _).
  destruct (extractText_bounded fuel urls domain net t) as (H3 & H4 & _).
  repeat split; auto using getLinks_fuel, extractText_fuel.
  - destruct (isWellFormed url) eqn:Hurl.
    + now rewrite (getLinks_no_retry _ _ _ _ Hurl).
    + now rewrite (getLinks_malformed _ _ _ _ _ Hurl).
  - now rewrite extractText_no_retry.
Qed.

(** A budget of one is not enough when a payment succeeds: the depth of
    two is reached. *)
Example getLinks_depth_two :
  getLinks 1 "https://example.com" true (paywalled_links true) [] =
    (OutOfFuel,
     [Sent (Links "https://example.com");
      PayCalled (challenge_for (Str "u"));
      Sent (Payment (Str "u"))]).
Proof. reflexivity. Qed.

(** ** Tool operations *)

Section ToolFacts.

Variable URL_hostname : value -> option string.

Lemma scrape_website_step (fuel : nat) (url : string) (hostname : string)
    (net : network) (t : trace) :
  URL_hostname (Str url) = Some hostname ->
  callTool URL_hostname fuel (scrape_website url) net t =
    (links <- getLinks fuel url true ;;
     if truthy (isX402 links) then
       ret (Stringified
         (Obj [("error", Str "Payment failed for links"); ("x402", links)]))
     else
       found <- get links "links" ;;
       candidates <- as_array (or_ found (Arr [])) ;;
       let filtered :=
         filterUrls URL_hostname candidates (replace "www." "" hostname) in
       if (List.length filtered =? 0)%nat then
         ret (Stringified
           (Obj [("links", found); ("filtered", Arr []);
                 ("message", Str "No internal links found")]))
       else
         extracted <-
           extractText fuel filtered (replace "www." "" hostname) true ;;
         ret (Stringified
           (Obj [("links", links); ("filtered", Arr filtered);
                 ("extracted", extracted)]))) net t.
Proof.
  intros H. cbn [callTool]. unfold host_of. rewrite H.
  unfold lift. exact (bind_ret _ _ net t).
Qed.

(** C8: in [scrape_website], once the URL has parsed and [getLinks] has
    returned, the trace is that of [getLinks] alone, which holds no
    extraction request, in both cases: when the links are still a payment
    challenge, the answer is the payload
    [{error: "Payment failed for links", x402: <challenge>}]; when the
    filtered list is empty, the answer is the payload with the links as
    received, [filtered: []] and [message: "No internal links found"]. *)
Theorem scrape_website_stops_before_extraction
    (fuel : nat) (url hostname : string) (net : network) (t : trace)
    (links : value) (dl : trace) :
  URL_hostname (Str url) = Some hostname ->
  getLinks (S (S fuel)) url true net t = (Ok links, dl) ->
  let run := callTool URL_hostname (S (S fuel)) (scrape_website url) net t in
  extracts_sent dl = 0 /\
  (truthy (isX402 links) = true ->
   run = (Ok (Stringified
                (Obj [("error", Str "Payment failed for links");
                      ("x402", links)])), dl)) /\
  (forall candidates,
     truthy (isX402 links) = false ->
     nullish links = false ->
     or_ (opt_get links "links") (Arr []) = Arr candidates ->
     filterUrls URL_hostname candidates (replace "www." "" hostname) = [] ->
     run = (Ok (Stringified
                  (Obj [("links", opt_get links "links");
                        ("filtered", Arr []);
                        ("message", Str "No internal links found")])), dl)).
Proof.
  intros Hurl Hlinks run. subst run.
  split; [|split].
  - pose proof (getLinks_sends_no_extract (S (S fuel)) url true net t) as H.
    now rewrite Hlinks in H.
  - intros Hx. rewrite (scrape_website_step _ _ _ _ _ Hurl).
    rewrite bind_run, Hlinks. cbn [fst snd]. rewrite Hx.
    cbn. now rewrite app_nil_r.
  - intros candidates Hx Hn Hcand Hfilter.
    rewrite (scrape_website_step _ _ _ _ _ Hurl).
    rewrite bind_run, Hlinks. cbn [fst snd]. rewrite Hx.
    rewrite bind_get, Hn, Hcand. unfold as_array. rewrite bind_ret.
    cbv zeta. rewrite Hfilter. cbn. now rewrite app_nil_r.
Qed.

(** C10: [extract_text] filters its [urls] before anything else.  When
    nothing passes the filter it answers the plain text
    ["No URLs matched domain filter"] and the trace stays empty: no
    request is made.  Otherwise the extraction runs on the filtered list,
    and its result is what is answered. *)
Theorem extract_text_filters_first
    (fuel : nat) (urls : list value) (domain : string)
    (net : network) (t : trace) :
  (filterUrls URL_hostname urls domain = [] ->
   callTool URL_hostname fuel (extract_text urls domain) net t =
     (Ok (Plain "No URLs matched domain filter"), [])) /\
  (filterUrls URL_hostname urls domain <> [] ->
   let run :=
     extractText fuel (filterUrls URL_hostname urls domain) domain true net t in
   callTool URL_hostname fuel (extract_text urls domain) net t =
     (match fst run with
      | Ok result => Ok (Stringified result)
      | Throw e => Throw e
      | OutOfFuel => OutOfFuel
      end, snd run)).
Proof.
  split.
  - intros H. cbn [callTool]. now rewrite H.
  - intros H run. subst run. cbn [callTool].
    destruct (filterUrls URL_hostname urls domain) as [|x xs] eqn:E;
      [contradiction|].
    cbn [List.length Nat.eqb]. rewrite bind_run.
    destruct (extractText fuel (x :: xs) domain true net t) as [[a|e|] d];
      cbn; [now rewrite app_nil_r | reflexivity | reflexivity].
Qed.

End ToolFacts.

(** The scenario of C8 where the payment fails. *)
Lemma scrape_website_stops_before_extraction_witness :
  callTool plain_hostname 2 (scrape_website "https://example.com")
    (paywalled_links false) [] =
    (Ok (Stringified
           (Obj [("error", Str "Payment failed for links");
                 ("x402", challenge_for (Str "u"))])),
     [Sent (Links "https://example.com");
      PayCalled (challenge_for (Str "u"));
      Sent (Payment (Str "u"))]).
Proof.
  exact (proj1 (proj2 (scrape_website_stops_before_extraction
                         plain_hostname 0 "https://example.com" "example.com"
                         (paywalled_links false) []
                         (challenge_for (Str "u"))
                         [Sent (Links "https://example.com");
                          PayCalled (challenge_for (Str "u"));
                          Sent (Payment (Str "u"))]
                         eq_refl eq_refl)) eq_refl).
Defined.

(** A URL of the social denylist does not pass the filter of
    [extract_text]. *)
Lemma extract_text_filters_first_witness :
  callTool plain_hostname 2
    (extract_text [Str "https://www.x.com/"] "x.com")
    (paywalled_links true) [] =
    (Ok (Plain "No URLs matched domain filter"), []).
Proof.
  exact (proj1 (extract_text_filters_first plain_hostname 2
                  [Str "https://www.x.com/"] "x.com"
                  (paywalled_links true) []) eq_refl).
Defined.

(** * Further properties *)

(** ** What a run adds to the trace *)

Section Billing.

Variable own : request.

Lemma billed_app (a b : trace) :
  billed own a -> billed own b -> billed own (a ++ b).
Proof.
  intros Ha Hb. induction Ha; cbn; [assumption | | |];
    constructor; assumption.
Qed.

Lemma pay_billed (x402 : value) (net : network) (t : trace) :
  truthy (isX402 x402) = true ->
  billed own (snd (pay x402 net t)).
Proof.
  intros Hx. rewrite pay_run.
  destruct (truthy (resource_of x402)), (convertible (resource_of x402));
    cbn [snd];
    first [ apply billed_paid; [assumption | apply billed_nil]
          | apply billed_unpaid; [assumption | apply billed_nil] ].
Qed.

Lemma for_of_pay_billed (xs : list value) (net : network) (t : trace) :
  Forall (fun x => truthy (isX402 x) = true) xs ->
  billed own (snd (for_of xs pay net t)).
Proof.
  revert t; induction xs as [|x xs IH]; intros t H; [constructor|].
  inversion H as [|? ? Hx Hrest]; subst.
  cbn [for_of]. rewrite bind_run.
  pose proof (pay_billed x net t Hx) as Hpay.
  destruct (pay x net t) as [[b|e|] d]; cbn [fst snd] in *; auto.
  apply billed_app; [assumption | apply IH; assumption].
Qed.

End Billing.

Lemma getLinks_billed (fuel : nat) (url : string) (retry : bool)
    (net : network) (t : trace) :
  billed (Links url) (snd (getLinks fuel url retry net t)).
Proof.
  revert retry t; induction fuel as [|fuel IH]; intros retry t;
    [constructor|].
  destruct (isWellFormed url) eqn:Hurl;
    [|rewrite (getLinks_malformed _ _ _ _ _ Hurl); constructor].
  rewrite (getLinks_step _ _ _ _ _ Hurl), bind_fetch.
  destruct (net t (Links url)) as [|ok [data|]];
    try (repeat constructor).
  rewrite bind_json.
  destruct (truthy (isX402 data)) eqn:Hx; [|repeat constructor].
  rewrite bind_run.
  destruct retry.
  - pose proof (pay_billed (Links url) data net (t ++ [Sent (Links url)])
                  Hx) as Hd.
    destruct (pay data net (t ++ [Sent (Links url)])) as [[[|]|e|] dp];
      cbn [fst snd] in *; constructor; auto.
    + apply billed_app; [assumption | apply IH].
    + cbn. now rewrite app_nil_r.
  - cbn. repeat constructor.
Qed.

Lemma extractText_billed (fuel : nat) (urls : list value) (domain : string)
    (retry : bool) (net : network) (t : trace) :
  billed (Extract urls domain)
    (snd (extractText fuel urls domain retry net t)).
Proof.
  revert retry t; induction fuel as [|fuel IH]; intros retry t;
    [constructor|].
  rewrite extractText_step, bind_fetch.
  destruct (net t (Extract urls domain)) as [|ok [data|]];
    try (repeat constructor).
  rewrite bind_json.
  destruct (truthy (isX402 data)) eqn:Hx.
  - rewrite bind_run. destruct retry.
    + pose proof (pay_billed (Extract urls domain) data net
                    (t ++ [Sent (Extract urls domain)]) Hx) as Hd.
      destruct (pay data net (t ++ [Sent (Extract urls domain)]))
        as [[[|]|e|] dp]; cbn [fst snd] in *; constructor; auto.
      * apply billed_app; [assumption | apply IH].
      * cbn. now rewrite app_nil_r.
    + cbn. repeat constructor.
  - rewrite bind_get.
    destruct (nullish data); [repeat constructor|].
    destruct (truthy (opt_get data "results") && retry);
      [|repeat constructor].
    destruct (opt_get data "results") as [| | b | n | s | items | props];
      try (repeat constructor).
    unfold array_filter. rewrite bind_ret. fold (challenges items).
    destruct (0 <? List.length (challenges items))%nat;
      [|repeat constructor].
    rewrite bind_run.
    assert (Hall : Forall (fun x => truthy (isX402 x) = true)
                     (challenges items)).
    { apply Forall_forall. intros x Hin.
      unfold challenges in Hin. apply filter_In in Hin. tauto. }
    pose proof (for_of_pay_billed (Extract urls domain) (challenges items)
                  net (t ++ [Sent (Extract urls domain)]) Hall) as Hd.
    destruct (for_of (challenges items) pay net
                (t ++ [Sent (Extract urls domain)])) as [[[]|e|] dp];
      cbn [fst snd] in *; constructor; auto.
    apply billed_app; [assumption | apply IH].
Qed.

(** X7: whatever the network answers, for every budget and flag, what a
    run of [getLinks] adds to the trace is a sequence of its own request,
    unchanged, and of payment episodes: an entry into [pay] on a value
    the detector accepts, followed by at most one payment request, for
    the resource of that very value; and likewise for [extractText].  No
    other request is sent and nothing else is paid for. *)
Theorem fetchers_emit_only_expected_events
    (fuel : nat) (url : string) (urls : list value) (domain : string)
    (retry : bool) (net : network) (t : trace) :
  billed (Links url) (snd (getLinks fuel url retry net t)) /\
  billed (Extract urls domain)
    (snd (extractText fuel urls domain retry net t)).
Proof. split; [apply getLinks_billed | apply extractText_billed]. Qed.

(** A payment request for another resource than that of the challenge
    [pay] was called on is not such a trace. *)
Example billed_rejects_other_resource :
  billed (Links "u")
    [PayCalled (challenge_for (Str "u")); Sent (Payment (Str "u"))] /\
  ~ billed (Links "u")
      [PayCalled (challenge_for (Str "u")); Sent (Payment (Str "v"))].
Proof.
  split.
  - apply (billed_paid (Links "u") (challenge_for (Str "u")) []);
      [reflexivity | constructor].
  - intros H.
    inversion H as [| | x rest Hx Hrest | x rest Hx Hrest Ex].
    + inversion Hrest.
    + match goal with
      | E : resource_of _ = _ |- _ => cbn in E; discriminate E
      end.
Qed.

(** ** Outcomes of the payment executor and of the fetchers *)

(** X1: for every value, network and history, [pay] sends at most one request,
    a payment for the resource of the first option.  It answers [true]
    exactly when that request was sent and answered with an ok status;
    once the request is sent nothing is thrown (a rejected fetch gives
    [false]); the only exception is the TypeError of the log line, raised
    before any request; a falsy resource gives [false] with no request. *)
Theorem pay_outcomes (x402 : value) (net : network) (t : trace) :
  let run := pay x402 net t in
  let url := resource_of x402 in
  let answer := net (t ++ [PayCalled x402]) (Payment url) in
  (snd run = [PayCalled x402] \/
   snd run = [PayCalled x402; Sent (Payment url)]) /\
  (fst run = Ok true <->
   snd run = [PayCalled x402; Sent (Payment url)] /\
   status_of answer = true) /\
  (snd run = [PayCalled x402; Sent (Payment url)] ->
   fst run = Ok (status_of answer)) /\
  (forall e,
     fst run = Throw e -> e = TypeError /\ snd run = [PayCalled x402]) /\
  (truthy url = false -> run = (Ok false, [PayCalled x402])).
Proof.
  cbv zeta. rewrite pay_run.
  destruct (truthy (resource_of x402)), (convertible (resource_of x402));
    cbn [fst snd];
    (split; [|split; [split|]; [| |split; [|split]]]);
    auto; try discriminate;
    try (intros [H _]; discriminate);
    try (intros e H; discriminate).
  - intros H. now injection H.
  - intros [_ H]. now rewrite H.
  - intros e H. now injection H.
Qed.

(** X5: [getLinks] throws a URIError, and sends nothing, on a url that
    cannot be encoded.  Once the request is sent, a failure of the
    request itself is passed on by both fetchers after that single
    request, whatever the flag: a rejected fetch as a FetchError, a body
    that is not JSON as a SyntaxError; nothing is paid and nothing is
    retried.  [extractText] moreover throws a TypeError on a body that is
    [null], and, when a retry is allowed, on a body whose truthy
    [results] is not an array. *)
Theorem fetch_failures_propagate
    (fuel : nat) (url : string) (urls : list value) (domain : string)
    (retry : bool) (net : network) (t : trace) :
  (isWellFormed url = false ->
   getLinks (S fuel) url retry net t = (Throw URIError, [])) /\
  (forall e,
     isWellFormed url = true ->
     body_of (net t (Links url)) = Throw e ->
     getLinks (S fuel) url retry net t = (Throw e, [Sent (Links url)])) /\
  (forall e,
     body_of (net t (Extract urls domain)) = Throw e ->
     extractText (S fuel) urls domain retry net t =
       (Throw e, [Sent (Extract urls domain)])) /\
  (body_of (net t (Extract urls domain)) = Ok Null ->
   extractText (S fuel) urls domain retry net t =
     (Throw TypeError, [Sent (Extract urls domain)])) /\
  (forall data,
     body_of (net t (Extract urls domain)) = Ok data ->
     truthy (isX402 data) = false ->
     truthy (opt_get data "results") = true ->
     (forall items, opt_get data "results" <> Arr items) ->
     extractText (S fuel) urls domain true net t =
       (Throw TypeError, [Sent (Extract urls domain)])).
Proof.
  split; [apply getLinks_malformed|]. split; [|split; [|split]].
  - intros e Hurl H. rewrite (getLinks_step _ _ _ _ _ Hurl), bind_fetch.
    destruct (net t (Links url)) as [|ok [data|]]; cbn in H;
      try discriminate; now injection H as <-.
  - intros e H. rewrite extractText_step, bind_fetch.
    destruct (net t (Extract urls domain)) as [|ok [data|]]; cbn in H;
      try discriminate; now injection H as <-.
  - intros H. rewrite extractText_step, bind_fetch.
    destruct (net t (Extract urls domain)) as [|ok [data|]]; cbn in H;
      try discriminate. injection H as ->.
    rewrite bind_json. cbn [isX402 opt_get and_ truthy].
    now rewrite bind_get.
  - intros data H Hx Ht Hno.
    rewrite extractText_step, bind_fetch.
    destruct (net t (Extract urls domain)) as [|ok [data'|]]; cbn in H;
      try discriminate. injection H as ->.
    rewrite bind_json, Hx, bind_get.
    assert (Hn : nullish data = false)
      by (destruct data; try reflexivity; discriminate).
    rewrite Hn, Ht. cbn [andb].
    destruct (opt_get data "results"); try reflexivity.
    exfalso. exact (Hno items eq_refl).
Qed.

(** X3: when the extraction response itself is a payment challenge and a retry
    is allowed, [extractText] calls [pay] once, on that response, and on
    nothing inside it.  If [pay] answers [true] the extraction is replayed
    once, without retry, and the outcome of the replay is returned; if it
    answers [false] the challenge is returned as it is. *)
Theorem extractText_top_level_challenge
    (fuel : nat) (urls : list value) (domain : string) (net : network)
    (t : trace) (ok : bool) (data : value) :
  net t (Extract urls domain) = Reply ok (Some data) ->
  truthy (isX402 data) = true ->
  let r := Extract urls domain in
  let run := extractText (S (S fuel)) urls domain true net t in
  paid_items (snd run) = [data] /\
  (forall dp,
     pay data net (t ++ [Sent r]) = (Ok true, dp) ->
     run = (unretried (net (t ++ [Sent r] ++ dp) r),
            [Sent r] ++ dp ++ [Sent r])) /\
  (forall dp,
     pay data net (t ++ [Sent r]) = (Ok false, dp) ->
     run = (Ok data, [Sent r] ++ dp)).
Proof.
  intros Hnet Hx r run. subst run r.
  rewrite extractText_run. cbv zeta. rewrite Hnet, Hx.
  destruct (pay_trace data net (t ++ [Sent (Extract urls domain)]))
    as (_ & Hpaid & _).
  destruct (pay data net (t ++ [Sent (Extract urls domain)]))
    as [[[|]|e|] dp]; cbn [fst snd] in *;
    (split; [rewrite ?paid_items_app, Hpaid; reflexivity|]);
    split; intros dp' E; try discriminate; now injection E as <-.
Qed.

(** X6: a response in which the detector finds nothing is returned unchanged
    after the single request, with no entry into [pay], whatever the
    flag: by [getLinks] (the url being one that can be encoded, so that
    the request is made) when the body is not a challenge, by
    [extractText] when moreover the body is not [null] and its [results]
    are falsy or an array without a challenge. *)
Theorem unchallenged_response_returned
    (fuel : nat) (url : string) (urls : list value) (domain : string)
    (retry : bool) (net : network) (t : trace) (data : value) :
  truthy (isX402 data) = false ->
  (isWellFormed url = true ->
   body_of (net t (Links url)) = Ok data ->
   getLinks (S fuel) url retry net t = (Ok data, [Sent (Links url)])) /\
  (body_of (net t (Extract urls domain)) = Ok data ->
   nullish data = false ->
   truthy (opt_get data "results") = false \/
   (exists items,
      opt_get data "results" = Arr items /\ challenges items = []) ->
   extractText (S fuel) urls domain retry net t =
     (Ok data, [Sent (Extract urls domain)])).
Proof.
  intros Hx. split.
  - intros Hurl H. rewrite (getLinks_step _ _ _ _ _ Hurl), bind_fetch.
    destruct (net t (Links url)) as [|ok [data'|]]; cbn in H;
      try discriminate. injection H as ->.
    now rewrite bind_json, Hx.
  - intros H Hn Hres. rewrite extractText_step, bind_fetch.
    destruct (net t (Extract urls domain)) as [|ok [data'|]]; cbn in H;
      try discriminate. injection H as ->.
    rewrite bind_json, Hx, bind_get, Hn.
    destruct Hres as [Hf | [items [Hi Hc]]].
    + now rewrite Hf.
    + rewrite Hi. cbn [truthy andb]. destruct retry; [|reflexivity].
      unfold array_filter. rewrite bind_ret. fold (challenges items).
      now rewrite Hc.
Qed.

(** X4: when [pay] throws on one of the challenges found among the results,
    [extractText] rejects with that TypeError: the challenges before it
    have been paid for, those after it have not, and the extraction is
    not replayed. *)
Theorem extractText_stops_at_throwing_payment
    (fuel : nat) (urls : list value) (domain : string) (net : network)
    (t : trace) (ok : bool) (data : value)
    (items before : list value) (x : value) (rest : list value) :
  net t (Extract urls domain) = Reply ok (Some data) ->
  truthy (isX402 data) = false ->
  opt_get data "results" = Arr items ->
  challenges items = before ++ x :: rest ->
  forallb payable before = true ->
  payable x = false ->
  let run := extractText (S (S fuel)) urls domain true net t in
  fst run = Throw TypeError /\
  paid_items (snd run) = before ++ [x] /\
  extracts_sent (snd run) = 1.
Proof.
  intros Hnet Hx Hres Hc Hb Hthrow run. subst run.
  rewrite extractText_run. cbv zeta. rewrite Hnet, Hx.
  assert (Hn : nullish data = false)
    by (destruct data; try reflexivity; discriminate).
  rewrite Hn, Hres, Hc. cbn [truthy].
  destruct (for_of_pay_stops before x rest net
              (t ++ [Sent (Extract urls domain)]) Hb Hthrow) as [Hf Hp].
  destruct (for_of_pay_trace (before ++ x :: rest) net
              (t ++ [Sent (Extract urls domain)])) as (_ & _ & He).
  destruct (before ++ x :: rest) as [|y ys] eqn:E;
    [destruct before; discriminate|].
  destruct (for_of (y :: ys) pay net (t ++ [Sent (Extract urls domain)]))
    as [[[]|e|] dp]; cbn [fst snd] in *; try discriminate.
  injection Hf as ->.
  rewrite paid_items_app, extracts_sent_app, Hp, He. now cbn.
Qed.

Lemma payments_for_app (a b : trace) :
  payments_for (a ++ b) = payments_for a ++ payments_for b.
Proof.
  induction a as [|[[u|us dm|u]|x] a IH]; simpl; auto. now rewrite IH.
Qed.

Lemma for_of_pay_requests (xs : list value) (net : network) (t : trace) :
  forallb payable xs = true ->
  payments_for (snd (for_of xs pay net t)) = map resource_of (billable xs).
Proof.
  revert t; induction xs as [|x xs IH]; intros t H; [reflexivity|].
  cbn [forallb] in H. apply andb_true_iff in H as [Hx Hxs].
  cbn [for_of]. rewrite bind_run.
  rewrite (pay_never_throws_when_payable x net t Hx).
  unfold billable. cbn [List.filter].
  destruct (truthy (resource_of x)); cbn [fst snd];
    rewrite payments_for_app, IH by assumption; reflexivity.
Qed.

(** X8: when [pay] throws on none of the challenges found among the results,
    [extractText] sends one payment request per challenge that names a
    resource, in the order of the results, each for the resource of the
    first option of its challenge; a challenge without resource costs no
    request, and yet counts for the replay: two extraction requests are
    sent in all. *)
Theorem extractText_payment_requests
    (fuel : nat) (urls : list value) (domain : string) (net : network)
    (t : trace) (ok : bool) (data : value) (items : list value) :
  net t (Extract urls domain) = Reply ok (Some data) ->
  truthy (isX402 data) = false ->
  opt_get data "results" = Arr items ->
  challenges items <> [] ->
  forallb payable (challenges items) = true ->
  let run := extractText (S (S fuel)) urls domain true net t in
  payments_for (snd run) = map resource_of (billable (challenges items)) /\
  extracts_sent (snd run) = 2.
Proof.
  intros Hnet Hx Hres Hne Hpay run. subst run.
  rewrite extractText_run. cbv zeta. rewrite Hnet, Hx.
  assert (Hn : nullish data = false)
    by (destruct data; try reflexivity; discriminate).
  rewrite Hn, Hres. cbn [truthy].
  pose proof (for_of_pay_requests _ net (t ++ [Sent (Extract urls domain)])
                Hpay) as Hreq.
  destruct (for_of_pay_all _ net (t ++ [Sent (Extract urls domain)]) Hpay)
    as [Hok _].
  destruct (for_of_pay_trace (challenges items) net
              (t ++ [Sent (Extract urls domain)])) as (_ & _ & He).
  destruct (challenges items) as [|x xs] eqn:Ec; [contradiction|].
  destruct (for_of (x :: xs) pay net (t ++ [Sent (Extract urls domain)]))
    as [[[]|e|] dp]; cbn [fst snd] in *; try discriminate.
  rewrite !payments_for_app, !extracts_sent_app, Hreq, He.
  split; [cbn; now rewrite app_nil_r | reflexivity].
Qed.

(** ** The domain filter *)

Section Containment.

Local Open Scope string_scope.

Lemma includes_empty (s : string) : includes s "" = true.
Proof. apply includes_iff. now exists "", s. Qed.

Lemma append_empty (s : string) : s ++ "" = s.
Proof. induction s as [|c s IH]; simpl; [reflexivity | now rewrite IH]. Qed.

Lemma includes_refl (s : string) : includes s s = true.
Proof. apply includes_iff. exists "", "". simpl. now rewrite append_empty. Qed.

Lemma includes_trans (a b c : string) :
  includes a b = true -> includes b c = true -> includes a c = true.
Proof.
  rewrite !includes_iff. intros (x & y & ->) (u & v & ->).
  exists (x ++ u), (v ++ y). now rewrite !append_assoc.
Qed.

End Containment.

Section FilterFacts.

Variable URL_hostname : value -> option string.

Lemma filterUrls_kept (links : list value) (domain : string) (link : value) :
  In link (filterUrls URL_hostname links domain) <->
  In link links /\ keeps URL_hostname domain link = true.
Proof. apply filter_In. Qed.

(** X9: filtering again with the same domain changes nothing: what
    [scrape_website] reports as [filtered] passes the filter of
    [extract_text] whole when given back with the same domain. *)
Theorem filterUrls_idempotent (links : list value) (domain : string) :
  filterUrls URL_hostname (filterUrls URL_hostname links domain) domain =
  filterUrls URL_hostname links domain.
Proof.
  unfold filterUrls. induction links as [|x links IH]; [reflexivity|].
  cbn [List.filter]. destruct (keeps URL_hostname domain x) eqn:E.
  - cbn [List.filter]. now rewrite E, IH.
  - exact IH.
Qed.

(** X10: a target domain whose host value contains a hostname of the social
    denylist lets nothing through: a link that contains the domain
    contains that hostname too.  [extract_text] then answers its plain
    text without any request. *)
Theorem filterUrls_social_domain_keeps_nothing
    (links : list value) (domain s : string) :
  In s socials ->
  includes (replace "www." "" domain) s = true ->
  filterUrls URL_hostname links domain = [] /\
  (forall fuel net t,
     callTool URL_hostname fuel (extract_text links domain) net t =
       (Ok (Plain "No URLs matched domain filter"), [])).
Proof.
  intros Hin Hs.
  assert (E : filterUrls URL_hostname links domain = []).
  { unfold filterUrls. induction links as [|x links IH]; [reflexivity|].
    cbn [List.filter].
    destruct (URL_hostname x) as [h|] eqn:Hh.
    - rewrite (keeps_parsed _ _ _ _ Hh).
      destruct (includes (replace "www." "" h) (replace "www." "" domain))
        eqn:Hd; [|now rewrite andb_false_r].
      assert (Hsoc : existsb (fun s => includes (replace "www." "" h) s)
                       socials = true).
      { apply existsb_exists. exists s. split; [exact Hin|].
        exact (includes_trans _ _ _ Hd Hs). }
      now rewrite Hsoc.
    - now rewrite (keeps_unparsed _ _ _ Hh). }
  split; [exact E|].
  intros fuel net t. cbn [callTool]. now rewrite E.
Qed.

(** X11: a link is kept under the host value of its own hostname as domain,
    provided that host value holds no further [www.] and no hostname of
    the denylist: [scrape_website] keeps the pages of the site it is
    given.  Under an empty domain, and under the domain [www.], every
    link that parses and is not on the denylist is kept. *)
Theorem filterUrls_keeps_own_host (link : value) (hostname : string) :
  URL_hostname link = Some hostname ->
  existsb (fun s => includes (replace "www." "" hostname) s) socials
    = false ->
  (includes (replace "www." "" hostname) "www." = false ->
   keeps URL_hostname (replace "www." "" hostname) link = true) /\
  keeps URL_hostname "" link = true /\
  keeps URL_hostname "www." link = true.
Proof.
  intros Hh Hsoc. rewrite !(keeps_parsed _ _ _ _ Hh), Hsoc.
  cbn [negb andb]. split; [|split].
  - intros Hno. rewrite (replace_absent _ _ _ Hno). apply includes_refl.
  - apply includes_empty.
  - apply includes_empty.
Qed.

End FilterFacts.

(** A target domain that contains [x.com]. *)
Lemma filterUrls_social_domain_keeps_nothing_witness :
  filterUrls plain_hostname [Str "https://netflix.com/title"] "netflix.com"
  = [].
Proof.
  exact (proj1 (filterUrls_social_domain_keeps_nothing plain_hostname
                  [Str "https://netflix.com/title"] "netflix.com" "x.com"
                  (or_intror (or_intror (or_intror (or_intror
                     (or_intror (or_intror (or_introl eq_refl)))))))
                  eq_refl)).
Defined.

Lemma filterUrls_keeps_own_host_witness :
  keeps plain_hostname "example.com" (Str "https://www.example.com/b") = true.
Proof.
  exact (proj1 (filterUrls_keeps_own_host plain_hostname
                  (Str "https://www.example.com/b") "www.example.com"
                  eq_refl eq_refl) eq_refl).
Defined.

(** With a second [www.] in the hostname the domain is stripped twice and
    the site's own pages are dropped. *)
Example filterUrls_drops_own_host :
  host_of plain_hostname (Str "https://www.awww.b.com/p") = Ok "awww.b.com" /\
  filterUrls plain_hostname [Str "https://www.awww.b.com/p"] "awww.b.com"
  = [].
Proof. split; reflexivity. Qed.

(** ** Tool calls *)

Ltac split_within := unfold within; split; [|split; [|split]].

Lemma within_weaken {A} (a b c d : nat) (run : result A * trace) :
  within a b run -> a <= c -> b <= d -> within c d run.
Proof.
  intros (H1 & H2 & H3 & H4) Hac Hbd. split_within; auto; lia.
Qed.

Lemma ret_within {A} (x : A) (net : network) (t : trace) :
  within 0 0 (ret x net t).
Proof. split_within; cbn; auto; discriminate. Qed.

Lemma bind_within {A B} (a b c d : nat) (m : M A) (k : A -> M B)
    (net : network) (t : trace) :
  within a b (m net t) ->
  (forall x t', within c d (k x net t')) ->
  within (a + c) (b + d) (bind m k net t).
Proof.
  unfold within. intros (H1 & H2 & H3 & H4) Hk. rewrite bind_run.
  destruct (m net t) as [[x|e|] dm]; cbn [fst snd] in *.
  - destruct (Hk x (t ++ dm)) as (K1 & K2 & K3 & K4).
    rewrite links_sent_app, extracts_sent_app.
    split; [|split; [|split]]; auto; lia.
  - split; [|split; [|split]]; try discriminate; try lia.
    intros E. apply H2. now injection E as ->.
  - contradiction.
Qed.

Lemma pay_raises (x402 : value) (net : network) (t : trace) (e : exn) :
  fst (pay x402 net t) = Throw e -> e = TypeError.
Proof.
  rewrite pay_run.
  destruct (truthy (resource_of x402)), (convertible (resource_of x402));
    cbn; intros H; try discriminate. now injection H.
Qed.

Lemma for_of_pay_raises (xs : list value) (net : network) (t : trace)
    (e : exn) :
  fst (for_of xs pay net t) = Throw e -> e = TypeError.
Proof.
  revert t; induction xs as [|x xs IH]; intros t; [discriminate|].
  cbn [for_of]. rewrite bind_run.
  pose proof (pay_raises x net t e) as Hp.
  destruct (pay x net t) as [[b|e'|] d]; cbn [fst snd] in *;
    [apply IH | | discriminate].
  intros E. injection E as ->. now apply Hp.
Qed.

Lemma getLinks_within (fuel : nat) (url : string) (net : network)
    (t : trace) :
  within 2 0 (getLinks (S (S fuel)) url true net t).
Proof.
  destruct (getLinks_bounded fuel url net t) as (H1 & H2 & H3).
  split_within; auto; [|lia].
  destruct (isWellFormed url) eqn:Hurl;
    [|rewrite (getLinks_malformed _ _ _ _ _ Hurl); discriminate].
  rewrite (getLinks_run _ _ _ _ Hurl). cbv zeta.
  destruct (net t (Links url)) as [|ok [data|]]; try discriminate.
  destruct (truthy (isX402 data)); [|discriminate].
  pose proof (pay_raises data net (t ++ [Sent (Links url)])) as Hp.
  destruct (pay data net (t ++ [Sent (Links url)])) as [[[|]|e|] dp];
    cbn [fst snd] in *; try discriminate.
  - destruct (net (t ++ [Sent (Links url)] ++ dp) (Links url))
      as [|ok' [d'|]]; discriminate.
  - intros E. injection E as ->. specialize (Hp _ eq_refl). discriminate.
Qed.

Lemma unretried_raises (r : response) : unretried r <> Throw MethodNotFound.
Proof.
  unfold unretried. destruct r as [|ok [data|]]; cbn; try discriminate.
  destruct (nullish data); discriminate.
Qed.

Lemma extractText_within (fuel : nat) (urls : list value) (domain : string)
    (net : network) (t : trace) :
  within 0 2 (extractText (S (S fuel)) urls domain true net t).
Proof.
  destruct (extractText_bounded fuel urls domain net t) as (H1 & H2 & H3).
  split_within; auto; [|lia].
  rewrite extractText_run. cbv zeta.
  set (r := Extract urls domain).
  destruct (net t r) as [|ok [data|]]; try discriminate.
  destruct (truthy (isX402 data)).
  - pose proof (pay_raises data net (t ++ [Sent r])) as Hp.
    destruct (pay data net (t ++ [Sent r])) as [[[|]|e|] dp];
      cbn [fst snd] in *; try discriminate.
    + apply unretried_raises.
    + intros E. injection E as ->. specialize (Hp _ eq_refl). discriminate.
  - destruct (nullish data); [discriminate|].
    destruct (truthy (opt_get data "results")); [|discriminate].
    destruct (opt_get data "results") as [| | b | n | s | items | props];
      try discriminate.
    destruct (challenges items) as [|x xs]; [discriminate|].
    pose proof (for_of_pay_raises (x :: xs) net (t ++ [Sent r])) as Hp.
    destruct (for_of (x :: xs) pay net (t ++ [Sent r])) as [[[]|e|] dp];
      cbn [fst snd] in *; try discriminate.
    + apply unretried_raises.
    + intros E. injection E as ->. specialize (Hp _ eq_refl). discriminate.
Qed.

Section HandlerFacts.

Variable URL_hostname : value -> option string.

Lemma callTool_within (fuel : nat) (c : tool_call) (net : network)
    (t : trace) :
  (forall n, c <> other_tool n) ->
  within 2 2 (callTool URL_hostname (S (S fuel)) c net t).
Proof.
  intros Hc. destruct c as [url | urls domain | url | n];
    [| | |exfalso; exact (Hc n eq_refl)].
  - cbn [callTool]. apply (within_weaken 2 0); [|lia|lia].
    apply (bind_within 2 0 0 0); [apply getLinks_within|].
    intros x t'. apply ret_within.
  - cbn [callTool].
    destruct (List.length (filterUrls URL_hostname urls domain) =? 0)%nat.
    + apply (within_weaken 0 0); [apply ret_within|lia|lia].
    + apply (within_weaken 0 2); [|lia|lia].
      apply (bind_within 0 2 0 0); [apply extractText_within|].
      intros x t'. apply ret_within.
  - cbn [callTool].
    apply (bind_within 0 0 2 2).
    { unfold lift, host_of.
      destruct (URL_hostname (Str url)); split_within; cbn;
        auto; discriminate. }
    intros domain t1.
    apply (bind_within 2 0 0 2); [apply getLinks_within|].
    intros links t2.
    destruct (truthy (isX402 links));
      [apply (within_weaken 0 0); [apply ret_within|lia|lia]|].
    apply (bind_within 0 0 0 2).
    { unfold get. destruct (nullish links); split_within; cbn;
        auto; discriminate. }
    intros found t3.
    apply (bind_within 0 0 0 2).
    { unfold as_array. destruct (or_ found (Arr [])); split_within; cbn;
        auto; discriminate. }
    intros candidates t4. cbv zeta.
    destruct (List.length (filterUrls URL_hostname candidates domain) =? 0)%nat;
      [apply (within_weaken 0 0); [apply ret_within|lia|lia]|].
    apply (bind_within 0 2 0 0); [apply extractText_within|].
    intros x t'. apply ret_within.
Qed.

(** X14: every tool call ends within the recursion budget of two and sends at
    most two link-discovery requests and at most two extraction requests,
    whatever the network answers. *)
Theorem callTool_bounded (fuel : nat) (c : tool_call) (net : network)
    (t : trace) :
  let run := callTool URL_hostname (S (S fuel)) c net t in
  fst run <> OutOfFuel /\
  links_sent (snd run) <= 2 /\
  extracts_sent (snd run) <= 2.
Proof.
  cbv zeta. destruct c as [url | urls domain | url | n];
    try (edestruct callTool_within as (H1 & _ & H3 & H4);
         [|repeat split; [exact H1 | exact H3 | exact H4]];
         intros n; discriminate).
  cbn. split; [discriminate | split; auto].
Qed.

Lemma listed_names :
  map name listTools = ["get_links"; "extract_text"; "scrape_website"].
Proof. reflexivity. Qed.

(** X15: the handler reports an unknown tool exactly for the names that
    [listTools] does not advertise, and then without any request: every
    advertised tool is implemented, and nothing else is. *)
Theorem handler_unknown_iff_unlisted
    (fuel : nat) (tool_name : string) (args : arguments) (net : network)
    (t : trace) :
  let run := handler URL_hostname (S (S fuel)) tool_name args net t in
  (fst run = Throw MethodNotFound <-> ~ In tool_name (map name listTools)) /\
  (fst run = Throw MethodNotFound -> snd run = []).
Proof.
  cbv zeta. rewrite listed_names. unfold handler.
  destruct (String.eqb_spec tool_name "get_links") as [->|H1].
  { destruct (callTool_within fuel (get_links (arg_url args)) net t)
      as (_ & H & _); [intros n; discriminate|].
    split; [|intros E; contradiction].
    split; [intros E; contradiction | intros Hn; exfalso; apply Hn; now left]. }
  destruct (String.eqb_spec tool_name "extract_text") as [->|H2].
  { destruct (callTool_within fuel
                (extract_text (arg_urls args) (arg_domain args)) net t)
      as (_ & H & _); [intros n; discriminate|].
    split; [|intros E; contradiction].
    split; [intros E; contradiction
           | intros Hn; exfalso; apply Hn; right; now left]. }
  destruct (String.eqb_spec tool_name "scrape_website") as [->|H3].
  { destruct (callTool_within fuel (scrape_website (arg_url args)) net t)
      as (_ & H & _); [intros n; discriminate|].
    split; [|intros E; contradiction].
    split; [intros E; contradiction
           | intros Hn; exfalso; apply Hn; right; right; now left]. }
  cbn. split; [|reflexivity]. split; [|reflexivity].
  intros _ [E|[E|[E|[]]]]; congruence.
Qed.

End HandlerFacts.

Section ScrapeFacts.

Variable URL_hostname : value -> option string.

(** X12: [scrape_website] gives up with an exception in four cases: a URL
    that does not parse, before any request; a failure of [getLinks],
    passed on; links that are [null]; and a truthy [links] member that is
    not an array.  In the last three the trace is that of [getLinks]. *)
Theorem scrape_website_failures
    (fuel : nat) (url : string) (net : network) (t : trace) :
  let run := callTool URL_hostname fuel (scrape_website url) net t in
  (URL_hostname (Str url) = None -> run = (Throw TypeError, [])) /\
  (forall hostname e dl,
     URL_hostname (Str url) = Some hostname ->
     getLinks fuel url true net t = (Throw e, dl) ->
     run = (Throw e, dl)) /\
  (forall hostname links dl,
     URL_hostname (Str url) = Some hostname ->
     getLinks fuel url true net t = (Ok links, dl) ->
     truthy (isX402 links) = false ->
     nullish links = true \/
     (truthy (opt_get links "links") = true /\
      forall items, opt_get links "links" <> Arr items) ->
     run = (Throw TypeError, dl)).
Proof.
  cbv zeta. split; [|split].
  - intros H. cbn [callTool]. unfold host_of. now rewrite H.
  - intros hostname e dl Hurl Hg.
    rewrite (scrape_website_step _ _ _ _ _ _ Hurl), bind_run, Hg.
    reflexivity.
  - intros hostname links dl Hurl Hg Hx Hbad.
    rewrite (scrape_website_step _ _ _ _ _ _ Hurl), bind_run, Hg.
    cbn [fst snd]. rewrite Hx, bind_get.
    destruct Hbad as [Hn | [Ht Hno]].
    + rewrite Hn. cbn. now rewrite app_nil_r.
    + assert (Hn : nullish links = false)
        by (destruct links; try reflexivity; discriminate).
      rewrite Hn. unfold or_. rewrite Ht. unfold as_array.
      destruct (opt_get links "links"); cbn; rewrite ?app_nil_r;
        try reflexivity.
      exfalso. exact (Hno items eq_refl).
Qed.

(** X13: when links are found and some pass the filter, [scrape_website] runs
    the extraction on the filtered list, in order, with the host value
    of the URL as domain, and answers the links as received, the filtered
    list and the result of the extraction, which it does not inspect; a
    failure of the extraction is passed on. *)
Theorem scrape_website_extracts_filtered
    (fuel : nat) (url hostname : string) (net : network) (t : trace)
    (links : value) (dl : trace) (candidates : list value) :
  URL_hostname (Str url) = Some hostname ->
  getLinks fuel url true net t = (Ok links, dl) ->
  truthy (isX402 links) = false ->
  nullish links = false ->
  or_ (opt_get links "links") (Arr []) = Arr candidates ->
  let domain := replace "www." "" hostname in
  let filtered := filterUrls URL_hostname candidates domain in
  filtered <> [] ->
  let extraction := extractText fuel filtered domain true net (t ++ dl) in
  callTool URL_hostname fuel (scrape_website url) net t =
    (match fst extraction with
     | Ok extracted =>
         Ok (Stringified
               (Obj [("links", links); ("filtered", Arr filtered);
                     ("extracted", extracted)]))
     | Throw e => Throw e
     | OutOfFuel => OutOfFuel
     end, dl ++ snd extraction).
Proof.
  intros Hurl Hg Hx Hn Hc domain filtered Hne extraction.
  subst extraction filtered domain.
  rewrite (scrape_website_step _ _ _ _ _ _ Hurl), bind_run, Hg.
  cbn [fst snd]. rewrite Hx, bind_get, Hn, Hc.
  unfold as_array. rewrite bind_ret. cbv zeta.
  destruct (filterUrls URL_hostname candidates (replace "www." "" hostname))
    as [|x xs] eqn:E; [contradiction|].
  cbn [List.length Nat.eqb]. rewrite bind_run.
  destruct (extractText fuel (x :: xs) (replace "www." "" hostname) true net
              (t ++ dl)) as [[a|e|] d]; cbn; rewrite ?app_nil_r; reflexivity.
Qed.

End ScrapeFacts.

(** ** Scenarios *)

Lemma extractText_pays_every_challenge_witness :
  paid_items
    (snd (for_of [challenge_for (Str "b")] pay
            (extraction_server partly_paywalled true)
            [Sent (Extract [Str "a"; Str "b"] "example.com")]))
  = [challenge_for (Str "b")].
Proof.
  exact (proj1 (extractText_pays_every_challenge
                  0 [Str "a"; Str "b"] "example.com"
                  (extraction_server partly_paywalled true) [] true
                  partly_paywalled
                  [Obj [("url", Str "a"); ("text", Str "t")];
                   challenge_for (Str "b")]
                  eq_refl eq_refl eq_refl
                  ltac:(discriminate) eq_refl)).
Defined.

Lemma extractText_payment_requests_witness :
  payments_for
    (snd (extractText 2 [Str "a"; Str "b"] "example.com" true
            (extraction_server partly_paywalled true) []))
  = [Str "b"].
Proof.
  exact (proj1 (extractText_payment_requests
                  0 [Str "a"; Str "b"] "example.com"
                  (extraction_server partly_paywalled true) [] true
                  partly_paywalled
                  [Obj [("url", Str "a"); ("text", Str "t")];
                   challenge_for (Str "b")]
                  eq_refl eq_refl eq_refl
                  ltac:(discriminate) eq_refl)).
Defined.

Lemma extractText_top_level_challenge_witness :
  paid_items
    (snd (extractText 2 [Str "a"] "example.com" true
            (answering (challenge_for (Str "u"))) []))
  = [challenge_for (Str "u")].
Proof.
  exact (proj1 (extractText_top_level_challenge
                  0 [Str "a"] "example.com"
                  (answering (challenge_for (Str "u"))) [] false
                  (challenge_for (Str "u")) eq_refl eq_refl)).
Defined.

Lemma extractText_stops_at_throwing_payment_witness :
  fst (extractText 2 [Str "a"; Str "b"; Str "c"] "example.com" true
         (extraction_server mixed_results true) [])
  = Throw TypeError.
Proof.
  exact (proj1 (extractText_stops_at_throwing_payment
                  0 [Str "a"; Str "b"; Str "c"] "example.com"
                  (extraction_server mixed_results true) [] true
                  mixed_results
                  [Obj [("url", Str "a"); ("text", Str "t")];
                   challenge_for (Obj [("toString", Num 1)]);
                   challenge_for (Str "b")]
                  [] (challenge_for (Obj [("toString", Num 1)]))
                  [challenge_for (Str "b")]
                  eq_refl eq_refl eq_refl eq_refl eq_refl eq_refl)).
Defined.

Lemma fetch_failures_propagate_witness :
  getLinks 1 "https://example.com" true unreachable [] =
    (Throw FetchError, [Sent (Links "https://example.com")]).
Proof.
  exact (proj1 (proj2 (fetch_failures_propagate
                         0 "https://example.com" [] "" true unreachable []))
           FetchError eq_refl eq_refl).
Defined.

Lemma unchallenged_response_returned_witness :
  getLinks 1 "https://example.com" true site_server [] =
    (Ok (Obj [("links", Arr [Str "https://example.com/a";
                             Str "https://github.com/x"])]),
     [Sent (Links "https://example.com")]).
Proof.
  exact (proj1 (unchallenged_response_returned
                  0 "https://example.com" [] "" true site_server []
                  (Obj [("links", Arr [Str "https://example.com/a";
                                       Str "https://github.com/x"])])
                  eq_refl) eq_refl eq_refl).
Defined.

Lemma scrape_website_failures_witness :
  callTool plain_hostname 2 (scrape_website "not a url") site_server [] =
    (Throw TypeError, []).
Proof.
  exact (proj1 (scrape_website_failures plain_hostname 2 "not a url"
                  site_server []) eq_refl).
Defined.

(** The end-to-end scenario: the page of the site is extracted, the link
    to the denylist is not. *)
Lemma scrape_website_extracts_filtered_witness :
  callTool plain_hostname 2 (scrape_website "https://example.com")
    site_server [] =
    (Ok (Stringified
           (Obj [("links",
                  Obj [("links", Arr [Str "https://example.com/a";
                                      Str "https://github.com/x"])]);
                 ("filtered", Arr [Str "https://example.com/a"]);
                 ("extracted",
                  Obj [("results",
                        Arr [Obj [("url", Str "https://example.com/a");
                                  ("text", Str "t")]])])])),
     [Sent (Links "https://example.com");
      Sent (Extract [Str "https://example.com/a"] "example.com")]).
Proof.
  exact (scrape_website_extracts_filtered plain_hostname 2
           "https://example.com" "example.com" site_server []
           (Obj [("links", Arr [Str "https://example.com/a";
                                Str "https://github.com/x"])])
           [Sent (Links "https://example.com")]
           [Str "https://example.com/a"; Str "https://github.com/x"]
           eq_refl eq_refl eq_refl eq_refl eq_refl
           ltac:(discriminate)).
Defined.
